(** * downloader_core.py : a shallow embedding of the download pipeline

    The module [downloader_core.py] probes the network speed, picks a number
    of connections, drives the media-extraction library (yt-dlp) with one
    retry, locates the downloaded file, optionally converts it to MP3 with
    the external encoder (ffmpeg) and reports the files it produced.

    The external collaborators (the speed-test library, [shutil.which], the
    extraction library and the encoder process) are not part of the
    repository: they appear as the variables of the section [Pipeline], so
    that every theorem holds for every behaviour they may have.  The
    filesystem is explicit state, and the effects the code performs on it
    (deleting a file, spawning the encoder, calling the extraction library)
    are recorded in a log. *)

From Stdlib Require Import String List ZArith QArith Qround Bool Lia.
Import ListNotations.
Open Scope string_scope.

(* ------------------------------------------------------------------ *)
(** ** Strings *)

(** Python's [needle in hay] on strings. *)
Fixpoint contains (needle hay : string) : bool :=
  String.prefix needle hay ||
  match hay with
  | EmptyString => false
  | String _ rest => contains needle rest
  end.

(** [str.replace('.', '')] *)
Fixpoint remove_dots (s : string) : string :=
  match s with
  | EmptyString => EmptyString
  | String c rest =>
      if Ascii.eqb c (Ascii.ascii_of_nat 46) then remove_dots rest else String c (remove_dots rest)
  end.

(** [str.upper()] on ASCII letters. *)
Definition ascii_upper (c : Ascii.ascii) : Ascii.ascii :=
  let n := Ascii.nat_of_ascii c in
  if ((97 <=? n) && (n <=? 122))%nat then Ascii.ascii_of_nat (n - 32)%nat else c.

Fixpoint upper (s : string) : string :=
  match s with
  | EmptyString => EmptyString
  | String c rest => String (ascii_upper c) (upper rest)
  end.

(** The decimal digits of [n >= 0] before [acc]; a fuel of
    [Z.log2 n + 1] covers every digit. *)
Fixpoint digits_of_Z (fuel : nat) (n : Z) (acc : string) : string :=
  match fuel with
  | O => acc
  | S fuel' =>
      let acc' := String (Ascii.ascii_of_nat (48 + Z.to_nat (n mod 10))%nat) acc in
      if (n <? 10)%Z then acc' else digits_of_Z fuel' (n / 10)%Z acc'
  end.

(** [str(z)] of an int. *)
Definition str_of_Z (z : Z) : string :=
  if (z <? 0)%Z then "-" ++ digits_of_Z (S (Z.to_nat (Z.log2 (- z)))) (- z)%Z ""
  else digits_of_Z (S (Z.to_nat (Z.log2 z))) z "".

(* ------------------------------------------------------------------ *)
(** ** Global constants, speed estimate and connection count *)

Definition DOWNLOADS_DIR : string := "downloads".

(** [CONNECTION_THRESHOLDS], highest threshold first. *)
Definition CONNECTION_THRESHOLDS : list (Q * Z) :=
  [(100#1, 16%Z); (50#1, 8%Z); (10#1, 4%Z); (0#1, 1%Z)].

(** [choose_connections]: the first threshold that [mbps] meets or
    exceeds gives the connection count; [1] if none does. *)
Fixpoint first_threshold (mbps : Q) (table : list (Q * Z)) : Z :=
  match table with
  | [] => 1%Z
  | (threshold, conns) :: rest =>
      if Qle_bool threshold mbps then conns else first_threshold mbps rest
  end.

Definition choose_connections (mbps : Q) : Z :=
  first_threshold mbps CONNECTION_THRESHOLDS.

(** A Python value read out of the speed-test result dictionary. *)
Inductive pyval :=
| PyNum (q : Q)        (** an int or a finite float *)
| PyOther.             (** anything [/ 1_000_000.0] raises a TypeError on *)

(** What the speed-test library does during [measure_download_speed]:
    either one of [Speedtest()], [get_best_server()], [download()] or
    [results.dict()] raises, or the dictionary is obtained and
    [.get("download")] finds the given value (or nothing). *)
Inductive speedtest_run :=
| SpeedRaised
| SpeedResult (download : option pyval).

(** [measure_download_speed]: every exception inside the [try] is caught
    and replaced by the default [10]. *)
Definition measure_download_speed (r : speedtest_run) : Q :=
  match r with
  | SpeedRaised => 10#1
  | SpeedResult v =>
      let dl_bps := match v with Some x => x | None => PyNum 0 end in
      match dl_bps with
      | PyNum b => b / (1000000#1)
      | PyOther => 10#1
      end
  end.

(* ------------------------------------------------------------------ *)
(** ** Size and speed formatting *)

(** Rounding to the nearest integer, ties to even: the rounding of
    Python's [format(x, ".2f")], which rounds the exact binary value of
    [x] correctly. *)
Definition round_half_even (q : Q) : Z :=
  let fl := Qfloor q in
  match Qcompare (Qminus q (inject_Z fl)) (1#2) with
  | Lt => fl
  | Gt => (fl + 1)%Z
  | Eq => if Z.even fl then fl else (fl + 1)%Z
  end.

Definition digit (n : Z) : Ascii.ascii := Ascii.ascii_of_nat (48 + Z.to_nat n)%nat.

(** A non-negative number of hundredths printed with two decimals. *)
Definition fmt_hundredths (r : Z) : string :=
  str_of_Z (r / 100) ++ "." ++
  String (digit ((r mod 100) / 10)) (String (digit (r mod 10)) EmptyString).

(** [f"{x:.2f}"]: the sign, then the magnitude rounded to hundredths. *)
Definition fmt_2f (x : Q) : string :=
  if Qle_bool 0 x then fmt_hundredths (round_half_even (Qmult x (100#1)))
  else "-" ++ fmt_hundredths (round_half_even (Qmult (Qopp x) (100#1))).

Definition size_names : list string := ["B"; "KB"; "MB"; "GB"].

(** The [while] loop of [human_readable_size]: it runs at most
    [len(size_names) - 1 = 3] times, so a fuel of 4 never runs out. *)
Fixpoint hr_loop (fuel : nat) (size_bytes : Q) (i : nat) : Q * nat :=
  match fuel with
  | O => (size_bytes, i)
  | S fuel' =>
      if Qle_bool (1024#1) size_bytes && (i <? length size_names - 1)%nat
      then hr_loop fuel' (Qdiv size_bytes (1024#1)) (S i)
      else (size_bytes, i)
  end.

(** [float(n)] of a Python int: rounded to 53 significant bits, ties to
    even; [None] is the [OverflowError] raised when the rounded value is
    2^1024 or more.  A double converted from an int is an integer. *)
Definition double_of_int (n : Z) : option Z :=
  let a := Z.abs n in
  let rounded :=
    if (a <? 2 ^ 53)%Z then a
    else
      let k := (Z.log2 a - 52)%Z in
      let q := Z.shiftr a k in
      let r := (a - Z.shiftl q k)%Z in
      let half := Z.shiftl 1 (k - 1) in
      let q' := if (r <? half)%Z then q
                else if (half <? r)%Z then (q + 1)%Z
                else if Z.even q then q else (q + 1)%Z in
      Z.shiftl q' k in
  if (2 ^ 1024 <=? rounded)%Z then None else Some (Z.sgn n * rounded)%Z.

(** [human_readable_size] on an integer byte count; [None] is the
    [OverflowError] of the int-to-float conversion.  Every path from a
    non-zero int converts it to a float: the division of line 28, or the
    [:.2f] format of line 30 when the loop does not run.  The comparison of
    line 27 gives the same answer on the int and on its float (rounding is
    monotone and 1024 is a double), a double divided by 1024 stays exact at
    these magnitudes, and [:.2f] rounds the exact value of the double half
    to even, which [fmt_2f] does on the rational it stands for. *)
Definition human_readable_size (size_bytes : Z) : option string :=
  if (size_bytes =? 0)%Z then Some "0 B"
  else
    match double_of_int size_bytes with
    | None => None
    | Some x =>
        let (v, i) := hr_loop 4 (inject_Z x) 0 in
        Some (fmt_2f v ++ " " ++ nth i size_names "")
    end.

(* ------------------------------------------------------------------ *)
(** ** Error classification of the extraction failure *)

Definition bot_msg : string :=
  "YouTube is requesting bot verification. Please try a different video or try again later.".
Definition private_msg : string :=
  "This is a private video and cannot be downloaded.".
Definition unavailable_msg : string :=
  "This video is unavailable or has been removed.".

(** The [except Exception as e] branch around the extraction. *)
Definition classify_error (error_msg : string) : string :=
  if contains "Sign in to confirm you're not a bot" error_msg then bot_msg
  else if contains "Private video" error_msg then private_msg
  else if contains "Video unavailable" error_msg then unavailable_msg
  else "Download failed: " ++ error_msg.

(* ------------------------------------------------------------------ *)
(** ** Paths and the filesystem *)

(** A [pathlib.Path]: its parent directory, its stem and its suffix
    (with the dot), so that [name = stem ++ suffix]. *)
Record path := mk_path { p_dir : string; p_stem : string; p_suffix : string }.

Definition p_name (p : path) : string := p_stem p ++ p_suffix p.
Definition path_str (p : path) : string := p_dir p ++ "/" ++ p_name p.

Definition path_eqb (p q : path) : bool :=
  String.eqb (p_dir p) (p_dir q) && String.eqb (p_stem p) (p_stem q)
  && String.eqb (p_suffix p) (p_suffix q).

(** What [stat()] reports, and whether the entry is a directory. *)
Record meta := mk_meta { m_mtime : Z; m_size : Z; m_is_dir : bool }.

(** The filesystem as its list of entries, in directory-listing order. *)
Definition fs := list (path * meta).

Definition fs_lookup (p : path) (f : fs) : option meta :=
  match find (fun e => path_eqb p (fst e)) f with
  | Some (_, m) => Some m
  | None => None
  end.

(** [Path.exists()] *)
Definition fs_exists (p : path) (f : fs) : bool :=
  match fs_lookup p f with Some _ => true | None => false end.

(** [Path.stat().st_size] on an existing path. *)
Definition fs_size (p : path) (f : fs) : Z :=
  match fs_lookup p f with Some m => m_size m | None => 0%Z end.

Definition fs_remove (p : path) (f : fs) : fs :=
  filter (fun e => negb (path_eqb p (fst e))) f.

(** A process writing the regular file [p] (replacing it if present). *)
Definition fs_write (p : path) (size mtime : Z) (f : fs) : fs :=
  (fs_remove p f ++ [(p, mk_meta mtime size false)])%list.

(** [output_path.glob("*")]: every entry of the directory, files and
    subdirectories alike, in listing order. *)
Definition glob_all (dir : string) (f : fs) : fs :=
  filter (fun e => String.eqb (p_dir (fst e)) dir) f.

(** [max(files, key=lambda x: x.stat().st_mtime)]: Python's [max] keeps
    the first of several maximal elements. *)
Fixpoint max_mtime_from (best : path * meta) (l : fs) : path * meta :=
  match l with
  | [] => best
  | e :: rest =>
      if (m_mtime (snd best) <? m_mtime (snd e))%Z then max_mtime_from e rest
      else max_mtime_from best rest
  end.

(* ------------------------------------------------------------------ *)
(** ** The extraction library's configuration and result *)

(** The [ytdlp_opts] dictionary; [progress_hooks] is present iff a hook
    was given. *)
Record ydl_opts := mk_opts {
  o_format : string;
  o_outtmpl : string;
  o_noplaylist : bool;
  o_quiet : bool;
  o_no_warnings : bool;
  o_ignoreerrors : bool;
  o_postprocessors : list string;
  o_skip_download : bool;
  o_external_downloader : option string;
  o_external_downloader_args : list string;
  o_writeinfojson : bool;
  o_overwrites : bool;
  o_extract_flat : bool;
  o_http_headers : list (string * string);
  o_sleep_interval : Z;
  o_max_sleep_interval : Z;
  o_retries : Z;
  o_fragment_retries : Z;
  o_skip_unavailable_fragments : bool;
  o_keep_fragments : bool;
  o_noprogress : bool;
  o_progress_hooks : bool
}.

(** [ytdlp_opts.copy()] followed by [ytdlp_opts_retry["quiet"] = False]. *)
Definition retry_opts (o : ydl_opts) : ydl_opts :=
  {| o_format := o_format o;
     o_outtmpl := o_outtmpl o;
     o_noplaylist := o_noplaylist o;
     o_quiet := false;
     o_no_warnings := o_no_warnings o;
     o_ignoreerrors := o_ignoreerrors o;
     o_postprocessors := o_postprocessors o;
     o_skip_download := o_skip_download o;
     o_external_downloader := o_external_downloader o;
     o_external_downloader_args := o_external_downloader_args o;
     o_writeinfojson := o_writeinfojson o;
     o_overwrites := o_overwrites o;
     o_extract_flat := o_extract_flat o;
     o_http_headers := o_http_headers o;
     o_sleep_interval := o_sleep_interval o;
     o_max_sleep_interval := o_max_sleep_interval o;
     o_retries := o_retries o;
     o_fragment_retries := o_fragment_retries o;
     o_skip_unavailable_fragments := o_skip_unavailable_fragments o;
     o_keep_fragments := o_keep_fragments o;
     o_noprogress := o_noprogress o;
     o_progress_hooks := o_progress_hooks o |}.

(** The dictionary returned by [extract_info]: the key
    ["requested_downloads"] (each item's ["filepath"], [None] when absent
    or falsy), the key ["filepath"] (with the same convention for its
    value) and the key ["title"]. *)
Record info := mk_info {
  i_requested_downloads : option (list (option path));
  i_filepath : option (option path);
  i_title : option string
}.

(** [safe_outtmpl] *)
Definition safe_outtmpl (output_dir : string) : string :=
  output_dir ++ "/%(title).200s.%(ext)s".

(** The exit of the encoder process: status 0 having written an output of
    the given size and mtime, or a non-zero status with its stderr. *)
Inductive encoder_exit :=
| EncOk (size mtime : Z)
| EncFail (stderr : string).

(** What one attempt [with YoutubeDL(opts) as ydl: ydl.extract_info(url,
    download=True)] does: the constructor raises, [extract_info] raises,
    or [extract_info] returns, [None] included (with [ignoreerrors=True]
    yt-dlp reports an extraction error and returns [None]).  A message is
    [str(e)] of the exception. *)
Inductive ydl_result :=
| InitRaised (msg : string)
| ExtractRaised (msg : string)
| Returned (r : option info).

(* ------------------------------------------------------------------ *)
(** ** Pipeline state, effects and exceptions *)

Inductive event :=
| EvExtract (o : ydl_opts)                 (** an attempt [YoutubeDL(o)] + [extract_info] *)
| EvUnlink (p : path)                              (** [Path.unlink()] *)
| EvSpawnEncoder (argv : list string) (out : path) (snapshot : fs).
    (** [subprocess.run(cmd)] of the encoder, with the filesystem it sees *)

Record state := mk_state { st_fs : fs; st_log : list event }.

Inductive exn :=
| RuntimeError (msg : string)
| OSError (msg : string)
| TypeError (msg : string).

Inductive outcome (A : Type) :=
| Ok (a : A) (s : state)
| Raise (e : exn) (s : state).
Arguments Ok {A} a s.
Arguments Raise {A} e s.

Definition M (A : Type) := state -> outcome A.

Definition ret {A} (a : A) : M A := fun s => Ok a s.
Definition raise {A} (e : exn) : M A := fun s => Raise e s.
Definition bind {A B} (m : M A) (k : A -> M B) : M B :=
  fun s => match m s with Ok a s' => k a s' | Raise e s' => Raise e s' end.

Notation "x <- m ;; k" := (bind m (fun x => k))
  (at level 61, m at next level, right associativity).

Definition get_fs : M fs := fun s => Ok (st_fs s) s.

(** [Path.unlink()]: an [OSError] on a directory or a missing path. *)
Definition unlink (p : path) : M unit := fun s =>
  match fs_lookup p (st_fs s) with
  | None => Raise (OSError ("No such file or directory: " ++ path_str p)) s
  | Some m =>
      if m_is_dir m then Raise (OSError ("Is a directory: " ++ path_str p)) s
      else Ok tt (mk_state (fs_remove p (st_fs s)) (EvUnlink p :: st_log s))
  end.

(** [str(p)]: [Path(".") / name] prints as [name]. *)
Definition os_path (p : path) : string :=
  if String.eqb (p_dir p) "." then p_name p else path_str p.

(** A regular file at [d] itself, or at one of its ancestors. *)
Definition mkdir_blocked (d : string) (f : fs) : bool :=
  existsb (fun e => negb (m_is_dir (snd e)) &&
                    (String.eqb (os_path (fst e)) d ||
                     String.prefix (os_path (fst e) ++ "/") d)) f.

(** [Path(d).mkdir(parents=True, exist_ok=True)] (lines 58 and 71):
    [FileExistsError] when [d] is a regular file, [NotADirectoryError] when
    an ancestor is; an existing directory is accepted.  Directories are
    implicit in the paths of the entries below them, so a successful call
    changes nothing. *)
Definition mkdir_p (d : string) : M unit := fun s =>
  if mkdir_blocked d (st_fs s) then
    if existsb (fun e => negb (m_is_dir (snd e)) && String.eqb (os_path (fst e)) d)
               (st_fs s)
    then Raise (OSError ("[Errno 17] File exists: '" ++ d ++ "'")) s
    else Raise (OSError ("[Errno 20] Not a directory: '" ++ d ++ "'")) s
  else Ok tt s.

(** An entry of [results["files"]]; [f_size] keeps the byte count that
    [human_readable_size] formats (no claim depends on the formatting). *)
Record file_entry := mk_entry {
  f_name : string; f_type : string; f_size : Z; f_format : string }.

Record result := mk_result {
  r_title : string; r_status : string; r_files : list file_entry }.

(* ------------------------------------------------------------------ *)
(** ** The pipeline [download_audio_from_youtube] *)

Section Pipeline.

(** [shutil.which(tool) is not None] *)
Variable which : string -> bool.
(** The speed-test library's behaviour during this call. *)
Variable speedtest : speedtest_run.
(** One attempt [YoutubeDL(opts)] + [extract_info(url, download=True)]:
    the files it leaves behind and its [ydl_result]. *)
Variable extract_info : ydl_opts -> string -> fs -> fs * ydl_result.
(** The encoder process run on [argv] in a filesystem, when its input can
    be opened. *)
Variable ffmpeg : fs -> list string -> encoder_exit.

Definition check_tool_exists (tool_name : string) : bool := which tool_name.

(** Lines 73-124: speed test, connection count and [ytdlp_opts]. *)
Definition build_opts (output_dir : string) (progress_hook : bool) : ydl_opts :=
  let mbps := measure_download_speed speedtest in
  let connections := choose_connections mbps in
  let use_aria2 := check_tool_exists "aria2c" && (1 <? connections)%Z in
  {| o_format := "bestaudio/best";
     o_outtmpl := safe_outtmpl output_dir;
     o_noplaylist := true;
     o_quiet := true;
     o_no_warnings := false;
     o_ignoreerrors := true;
     o_postprocessors := [];
     o_skip_download := false;
     o_external_downloader := if use_aria2 then Some "aria2c" else None;
     o_external_downloader_args :=
       if use_aria2
       then ["-x"; str_of_Z connections; "-s"; str_of_Z connections; "-k"; "1M"]
       else [];
     o_writeinfojson := false;
     o_overwrites := true;
     o_extract_flat := false;
     o_http_headers :=
       [("User-Agent", "Mozilla/5.0 (Windows NT 10.0; Win64; x64) AppleWebKit/537.36 (KHTML, like Gecko) Chrome/120.0.0.0 Safari/537.36");
        ("Accept", "text/html,application/xhtml+xml,application/xml;q=0.9,*/*;q=0.8");
        ("Accept-Language", "en-us,en;q=0.5");
        ("Accept-Encoding", "gzip,deflate");
        ("Accept-Charset", "ISO-8859-1,utf-8;q=0.7,*;q=0.7");
        ("Connection", "keep-alive")];
     o_sleep_interval := 1;
     o_max_sleep_interval := 2;
     o_retries := 10;
     o_fragment_retries := 10;
     o_skip_unavailable_fragments := true;
     o_keep_fragments := false;
     o_noprogress := true;
     o_progress_hooks := progress_hook |}%Z.

(** One attempt, logged. *)
Definition call_extract (o : ydl_opts) (url : string) : M ydl_result :=
  fun s =>
    let (fs', r) := extract_info o url (st_fs s) in
    Ok r (mk_state fs' (EvExtract o :: st_log s)).

(** Lines 126-149.  The first constructor [YoutubeDL(ytdlp_opts)] is
    outside the inner [try]: its exception is classified at once.  An
    exception of the first [extract_info] leads to one retry with
    [quiet = False]; an exception of the retry (constructor or call) is
    classified.  A returned value, [None] included, is the result. *)
Definition extract_with_retry (o : ydl_opts) (url : string) : M (option info) :=
  r1 <- call_extract o url ;;
  match r1 with
  | Returned r => ret r
  | InitRaised error_msg => raise (RuntimeError (classify_error error_msg))
  | ExtractRaised _ =>
      r2 <- call_extract (retry_opts o) url ;;
      match r2 with
      | Returned r => ret r
      | InitRaised error_msg | ExtractRaised error_msg =>
          raise (RuntimeError (classify_error error_msg))
      end
  end.

(** Lines 154-159: the first item whose ["filepath"] exists. *)
Fixpoint first_existing (f : fs) (reqs : list (option path)) : option path :=
  match reqs with
  | [] => None
  | Some fp :: rest => if fs_exists fp f then Some fp else first_existing f rest
  | None :: rest => first_existing f rest
  end.

(** Lines 152-170: the file detection. *)
Definition locate_file (output_dir : string) (i : info) (f : fs) : option path :=
  let from_requested :=
    match i_requested_downloads i with
    | Some reqs => first_existing f reqs
    | None => None
    end in
  match from_requested with
  | Some p => Some p
  | None =>
      let from_top :=
        match i_filepath i with
        | Some (Some fp) => if fs_exists fp f then Some fp else None
        | _ => None
        end in
      match from_top with
      | Some p => Some p
      | None =>
          match glob_all output_dir f with
          | [] => None
          | e :: rest => Some (fst (max_mtime_from e rest))
          end
      end
  end.

Definition not_found_msg : string :=
  "Could not find downloaded audio file. The download may have failed.".

(** Lines 152-173, raising when nothing is found. *)
Definition locate_stage (output_dir : string) (i : info) : M path :=
  f <- get_fs ;;
  match locate_file output_dir i f with
  | Some p => ret p
  | None => raise (RuntimeError not_found_msg)
  end.

(** The [TypeError] of [key in None]. *)
Definition none_type_msg : string := "argument of type 'NoneType' is not iterable".

(** Lines 73-173: everything after the directory creation up to the
    located file; line 154 tests ["requested_downloads" in info] outside any
    [try], a [TypeError] when [info] is [None]. *)
Definition fetch_and_locate (url : string) (output_dir : string)
    (progress_hook : bool) : M (info * path) :=
  let o := build_opts output_dir progress_hook in
  r <- extract_with_retry o url ;;
  match r with
  | None => raise (TypeError none_type_msg)
  | Some i =>
      p <- locate_stage output_dir i ;;
      ret (i, p)
  end.

Definition ffmpeg_missing_msg : string :=
  "ffmpeg not found - MP3 conversion unavailable".

(** The [cmd] list of line 206. *)
Definition ffmpeg_cmd (input output : path) : list string :=
  ["ffmpeg"; "-y"; "-i"; path_str input; "-vn"; "-codec:a"; "libmp3lame";
   "-b:a"; "320k"; "-ac"; "2"; "-ar"; "44100"; path_str output].

(** Lines 218-223: [subprocess.run(cmd, check=True, ...)].  The encoder
    exits non-zero when its input is not a readable regular file; when it
    exits with status 0 it has written its output ([-y] overwrites). *)
Definition run_encoder (input output : path) : M unit := fun s =>
  let argv := ffmpeg_cmd input output in
  let f := st_fs s in
  let s1 := mk_state f (EvSpawnEncoder argv output f :: st_log s) in
  let exit :=
    match fs_lookup input f with
    | Some m => if m_is_dir m then EncFail (path_str input ++ ": Is a directory")
                else ffmpeg f argv
    | None => EncFail (path_str input ++ ": No such file or directory")
    end in
  match exit with
  | EncOk size mtime =>
      Ok tt (mk_state (fs_write output size mtime f) (st_log s1))
  | EncFail stderr => Raise (RuntimeError ("MP3 conversion failed: " ++ stderr)) s1
  end.

Definition original_entry (p : path) (f : fs) : file_entry :=
  mk_entry (p_name p) "original" (fs_size p f) (upper (remove_dots (p_suffix p))).

Definition mp3_entry (p : path) (f : fs) : file_entry :=
  mk_entry (p_name p) "mp3" (fs_size p f) "MP3".

(** Lines 195-240. *)
Definition convert_stage (output_dir : string) (downloaded_file : path)
    (keep_original : bool) (files : list file_entry) : M (list file_entry) :=
  if negb (check_tool_exists "ffmpeg") then raise (RuntimeError ffmpeg_missing_msg)
  else
    let mp3_path := mk_path output_dir (p_stem downloaded_file) ".mp3" in
    f0 <- get_fs ;;
    _ <- (if fs_exists mp3_path f0 then unlink mp3_path else ret tt) ;;
    _ <- run_encoder downloaded_file mp3_path ;;
    f1 <- get_fs ;;
    let files1 :=
      if fs_exists mp3_path f1 then (files ++ [mp3_entry mp3_path f1])%list
      else files in
    if negb keep_original && fs_exists downloaded_file f1 then
      _ <- unlink downloaded_file ;;
      ret (filter (fun e => negb (String.eqb (f_type e) "original")) files1)
    else ret files1.

(** [download_audio_from_youtube(url, output_dir, convert_to_mp3,
    keep_original, progress_hook)]; [output_dir = None] selects
    [DOWNLOADS_DIR]. *)
Definition download_audio_from_youtube (url : string) (output_dir : option string)
    (convert_to_mp3 keep_original progress_hook : bool) : M result :=
  let out := match output_dir with Some d => d | None => DOWNLOADS_DIR end in
  _ <- mkdir_p out ;;
  r <- fetch_and_locate url out progress_hook ;;
  let (i, downloaded_file) := r in
  f <- get_fs ;;
  let video_title := match i_title i with Some t => t | None => "Unknown Title" end in
  let files0 :=
    if fs_exists downloaded_file f then [original_entry downloaded_file f] else [] in
  if convert_to_mp3 then
    files <- convert_stage out downloaded_file keep_original files0 ;;
    ret (mk_result video_title "success" files)
  else ret (mk_result video_title "success" files0).

(** A call on a filesystem, with an empty log. *)
Definition run (url : string) (output_dir : option string)
    (convert_to_mp3 keep_original progress_hook : bool) (f : fs) : outcome result :=
  download_audio_from_youtube url output_dir convert_to_mp3 keep_original
    progress_hook (mk_state f []).

End Pipeline.

(* ------------------------------------------------------------------ *)
(** ** Auxiliary definitions for the statements *)

(** The number of entries of [results["files"]] with the given type. *)
Definition count_type (t : string) (l : list file_entry) : nat :=
  length (filter (fun e => String.eqb (f_type e) t) l).

Definition state_of {A} (o : outcome A) : state :=
  match o with Ok _ s => s | Raise _ s => s end.

Definition out_dir (output_dir : option string) : string :=
  match output_dir with Some d => d | None => DOWNLOADS_DIR end.

(** No item of the list names an existing path. *)
Definition none_exists (f : fs) (reqs : list (option path)) : Prop :=
  Forall (fun q => match q with Some q => fs_exists q f = false | None => True end) reqs.

(** *** Every spawn of the encoder writes the MP3 sibling of its input in
    the output directory, with [-y], to a path absent from the filesystem
    it sees. *)
Definition spawn_ok (d : string) (log : list event) : Prop :=
  forall argv out snap, In (EvSpawnEncoder argv out snap) log ->
    (exists inp, argv = ffmpeg_cmd inp out /\ out = mk_path d (p_stem inp) ".mp3") /\
    fs_exists out snap = false /\ In "-y" argv.

Definition keeps {A} (d : string) (m : M A) : Prop :=
  forall s, spawn_ok d (st_log s) -> spawn_ok d (st_log (state_of (m s))).

Definition not_original (e : file_entry) : bool := negb (String.eqb (f_type e) "original").

Definition is_extract (ev : event) : Prop :=
  match ev with EvExtract _ => True | _ => False end.

(** The options with [quiet] set to [q], every other option kept. *)
Definition set_quiet (q : bool) (o : ydl_opts) : ydl_opts :=
  {| o_format := o_format o; o_outtmpl := o_outtmpl o; o_noplaylist := o_noplaylist o;
     o_quiet := q; o_no_warnings := o_no_warnings o; o_ignoreerrors := o_ignoreerrors o;
     o_postprocessors := o_postprocessors o; o_skip_download := o_skip_download o;
     o_external_downloader := o_external_downloader o;
     o_external_downloader_args := o_external_downloader_args o;
     o_writeinfojson := o_writeinfojson o; o_overwrites := o_overwrites o;
     o_extract_flat := o_extract_flat o; o_http_headers := o_http_headers o;
     o_sleep_interval := o_sleep_interval o; o_max_sleep_interval := o_max_sleep_interval o;
     o_retries := o_retries o; o_fragment_retries := o_fragment_retries o;
     o_skip_unavailable_fragments := o_skip_unavailable_fragments o;
     o_keep_fragments := o_keep_fragments o; o_noprogress := o_noprogress o;
     o_progress_hooks := o_progress_hooks o |}.

(* ------------------------------------------------------------------ *)
(** ** Concrete collaborators and filesystems for the examples *)

Module Scenario.

Definition which_none : string -> bool := fun _ => false.
Definition which_all : string -> bool := fun _ => true.

Definition webm : path := mk_path "downloads" "Song" ".webm".
Definition stale_mp3 : path := mk_path "downloads" "Song" ".mp3".
Definition subdir : path := mk_path "downloads" "covers" "".

(** An extraction library whose [extract_info] always raises with the
    message [m]. *)
Definition extract_raising (m : string) : ydl_opts -> string -> fs -> fs * ydl_result :=
  fun _ _ f => (f, ExtractRaised m).

(** An extraction library that, with [ignoreerrors=True], reports the
    extraction error and returns [None]. *)
Definition extract_none : ydl_opts -> string -> fs -> fs * ydl_result :=
  fun _ _ f => (f, Returned None).

Definition bot_error : string :=
  "ERROR: [youtube] abc: Sign in to confirm you're not a bot. Use --cookies-from-browser".
Definition private_error : string :=
  "ERROR: [youtube] abc: Private video. Sign in if you've been granted access to this video".

(** An extraction library that downloads [Song.webm] (mtime 10) and
    reports it in ["requested_downloads"]. *)
Definition extract_song : ydl_opts -> string -> fs -> fs * ydl_result :=
  fun _ _ f => (fs_write webm 4000000 10 f,
                Returned (Some (mk_info (Some [Some webm]) None (Some "Song")))).

(** An extraction result that names no file. *)
Definition info_bare : info := mk_info None None (Some "Song").

(** An output directory holding a downloaded file and a newer subdirectory. *)
Definition dir_with_subdir : fs :=
  [(webm, mk_meta 1 4000000 false); (subdir, mk_meta 2 4096 true)].

(** An output directory holding an MP3 left by an earlier run. *)
Definition dir_with_stale_mp3 : fs := [(stale_mp3, mk_meta 1 123 false)].

Definition ffmpeg_ok : fs -> list string -> encoder_exit := fun _ _ => EncOk 9000000 20.

End Scenario.

(* ------------------------------------------------------------------ *)
(** ** Lemmas on paths and the filesystem *)

Lemma path_eqb_refl (p : path) : path_eqb p p = true.
Proof. destruct p; unfold path_eqb; simpl; now rewrite !String.eqb_refl. Qed.

Lemma path_eqb_eq (p q : path) : path_eqb p q = true <-> p = q.
Proof.
  split.
  - destruct p, q; unfold path_eqb; simpl.
    intros H; apply andb_prop in H as [H H3]; apply andb_prop in H as [H1 H2].
    apply String.eqb_eq in H1, H2, H3; now subst.
  - intros ->; apply path_eqb_refl.
Qed.

Lemma path_eqb_sym (p q : path) : path_eqb p q = path_eqb q p.
Proof.
  destruct (path_eqb p q) eqn:E1, (path_eqb q p) eqn:E2; auto.
  - apply path_eqb_eq in E1; subst; now rewrite path_eqb_refl in E2.
  - apply path_eqb_eq in E2; subst; now rewrite path_eqb_refl in E1.
Qed.

Lemma fs_lookup_cons (p q : path) (m : meta) (f : fs) :
  fs_lookup p ((q, m) :: f) = if path_eqb p q then Some m else fs_lookup p f.
Proof. unfold fs_lookup; simpl; now destruct (path_eqb p q). Qed.

Lemma fs_lookup_app (p : path) (f g : fs) :
  fs_lookup p (f ++ g)%list =
  match fs_lookup p f with Some m => Some m | None => fs_lookup p g end.
Proof.
  induction f as [|[q m] f IH]; [reflexivity|].
  rewrite <- app_comm_cons, !fs_lookup_cons; now destruct (path_eqb p q).
Qed.

Lemma fs_lookup_remove_same (p : path) (f : fs) : fs_lookup p (fs_remove p f) = None.
Proof.
  induction f as [|[q m] f IH]; [reflexivity|].
  unfold fs_remove; simpl; destruct (path_eqb p q) eqn:E; simpl; [exact IH|].
  rewrite fs_lookup_cons, E; exact IH.
Qed.

Lemma fs_lookup_remove_other (p q : path) (f : fs) :
  path_eqb p q = false -> fs_lookup q (fs_remove p f) = fs_lookup q f.
Proof.
  intros Hpq; induction f as [|[r m] f IH]; [reflexivity|].
  unfold fs_remove in *; simpl; rewrite fs_lookup_cons.
  destruct (path_eqb p r) eqn:E; simpl.
  - apply path_eqb_eq in E; subst r; rewrite path_eqb_sym, Hpq; exact IH.
  - rewrite fs_lookup_cons; destruct (path_eqb q r); [reflexivity | exact IH].
Qed.

Lemma fs_lookup_write_same (p : path) (size mtime : Z) (f : fs) :
  fs_lookup p (fs_write p size mtime f) = Some (mk_meta mtime size false).
Proof.
  unfold fs_write; rewrite fs_lookup_app, fs_lookup_remove_same, fs_lookup_cons,
    path_eqb_refl; reflexivity.
Qed.

Lemma fs_lookup_write_other (p q : path) (size mtime : Z) (f : fs) :
  path_eqb p q = false -> fs_lookup q (fs_write p size mtime f) = fs_lookup q f.
Proof.
  intros H; unfold fs_write; rewrite fs_lookup_app, fs_lookup_remove_other by exact H.
  destruct (fs_lookup q f); [reflexivity|].
  rewrite fs_lookup_cons, path_eqb_sym, H; reflexivity.
Qed.

Lemma fs_exists_In (p : path) (m : meta) (f : fs) : In (p, m) f -> fs_exists p f = true.
Proof.
  unfold fs_exists; induction f as [|[q m'] f IH]; simpl; [tauto|].
  rewrite fs_lookup_cons; intros [E|H].
  - inversion E; subst; now rewrite path_eqb_refl.
  - destruct (path_eqb p q); [reflexivity | auto].
Qed.

Lemma max_mtime_from_In (best : path * meta) (l : fs) :
  max_mtime_from best l = best \/ In (max_mtime_from best l) l.
Proof.
  revert best; induction l as [|e l IH]; intros best; simpl; [now left|].
  destruct (m_mtime (snd best) <? m_mtime (snd e))%Z.
  - destruct (IH e) as [->|H]; right; [now left | now right].
  - destruct (IH best) as [->|H]; [now left | right; now right].
Qed.

Lemma max_mtime_from_keep (best : path * meta) (l : fs) :
  Forall (fun x => (m_mtime (snd x) <= m_mtime (snd best))%Z) l ->
  max_mtime_from best l = best.
Proof.
  induction l as [|e l IH]; intros H; simpl; [reflexivity|].
  inversion H as [|? ? He Hl]; subst.
  destruct (Z.ltb_spec (m_mtime (snd best)) (m_mtime (snd e))); [lia | auto].
Qed.

Lemma max_mtime_from_pick (best e : path * meta) (pre post : fs) :
  Forall (fun x => (m_mtime (snd x) < m_mtime (snd e))%Z) (best :: pre) ->
  Forall (fun x => (m_mtime (snd x) <= m_mtime (snd e))%Z) post ->
  max_mtime_from best (pre ++ e :: post)%list = e.
Proof.
  revert best; induction pre as [|x pre IH]; intros best Hpre Hpost; simpl.
  - inversion Hpre; subst.
    destruct (Z.ltb_spec (m_mtime (snd best)) (m_mtime (snd e))); [|lia].
    now apply max_mtime_from_keep.
  - inversion Hpre as [|? ? Hb Hrest]; subst; inversion Hrest as [|? ? Hx Hpre']; subst.
    destruct (m_mtime (snd best) <? m_mtime (snd x))%Z; apply IH; auto.
Qed.

Lemma locate_file_exists (out : string) (i : info) (f : fs) (p : path) :
  locate_file out i f = Some p -> fs_exists p f = true.
Proof.
  unfold locate_file.
  assert (Hreq : forall reqs, first_existing f reqs = Some p -> fs_exists p f = true).
  { induction reqs as [|[q|] reqs IH]; simpl; try discriminate; auto.
    destruct (fs_exists q f) eqn:E; auto; congruence. }
  destruct (i_requested_downloads i) as [reqs|];
    [destruct (first_existing f reqs) eqn:E1; [intros H; inversion H; subst; eauto|]|].
  all: destruct (i_filepath i) as [[q|]|];
    try (destruct (fs_exists q f) eqn:E2; [intros H; inversion H; now subst|]).
  all: destruct (glob_all out f) as [|e rest] eqn:G; try discriminate; intros H;
    inversion H; subst; clear H.
  all: assert (Hin : In (max_mtime_from e rest) (glob_all out f))
         by (rewrite G; destruct (max_mtime_from_In e rest) as [->|Hr];
             [now left | now right]);
       apply filter_In in Hin as [Hin _];
       destruct (max_mtime_from e rest) as [x mx]; simpl;
       eapply fs_exists_In; exact Hin.
Qed.

(* ------------------------------------------------------------------ *)
(** ** Claims on the pure helpers *)

(** C3: [choose_connections] returns 16 for [mbps >= 100], 8 on
    [[50,100)], 4 on [[10,50)], 1 on [[0,10)] and 1 for negative inputs;
    so it is always at least 1. *)
Theorem choose_connections_table (mbps : Q) :
  ((100#1) <= mbps -> choose_connections mbps = 16%Z) /\
  ((50#1) <= mbps -> mbps < (100#1) -> choose_connections mbps = 8%Z) /\
  ((10#1) <= mbps -> mbps < (50#1) -> choose_connections mbps = 4%Z) /\
  ((0#1) <= mbps -> mbps < (10#1) -> choose_connections mbps = 1%Z) /\
  (mbps < (0#1) -> choose_connections mbps = 1%Z) /\
  (1 <= choose_connections mbps)%Z.
Proof.
  unfold choose_connections, CONNECTION_THRESHOLDS; simpl.
  destruct (Qle_bool (100#1) mbps) eqn:E100;
  destruct (Qle_bool (50#1) mbps) eqn:E50;
  destruct (Qle_bool (10#1) mbps) eqn:E10;
  destruct (Qle_bool (0#1) mbps) eqn:E0;
  rewrite ?Qle_bool_iff in *;
  repeat match goal with
         | H : Qle_bool _ _ = false |- _ =>
             apply Bool.not_true_iff_false in H; rewrite Qle_bool_iff in H
         end;
  repeat split; intros; try lia;
  match goal with
  | |- _ = _ => exfalso
  end;
  solve [ match goal with
          | H1 : ?a <= mbps, H2 : mbps < ?b |- _ =>
              apply (Qlt_not_le mbps a); [| exact H1];
              eapply Qlt_le_trans; [exact H2 | unfold Qle; simpl; lia]
          end
        | match goal with
          | H1 : ~ ?a <= mbps, H2 : ?b <= mbps |- _ =>
              apply H1; eapply Qle_trans; [| exact H2]; unfold Qle; simpl; lia
          end
        | match goal with
          | H1 : ~ ?a <= mbps, H2 : ?b <= mbps |- _ =>
              apply H1; eapply Qle_trans; [| exact H2]; unfold Qle; simpl; lia
          end ].
Qed.

(** C9: [measure_download_speed] returns the fallback [10] when the
    speed-test library raises (or its download value is not a number),
    and otherwise the measured bits per second divided by 1,000,000
    (a missing value counts as 0); being a total function it never
    propagates an error. *)
Theorem measure_download_speed_fallback (r : speedtest_run) :
  (r = SpeedRaised -> measure_download_speed r = 10#1) /\
  (r = SpeedResult (Some PyOther) -> measure_download_speed r = 10#1) /\
  (forall b, r = SpeedResult (Some (PyNum b)) ->
     measure_download_speed r = b / (1000000#1)) /\
  (r = SpeedResult None -> measure_download_speed r == 0 / (1000000#1)).
Proof.
  repeat split; intros; subst; reflexivity.
Qed.

(** C10: the classification tests the bot-verification substring first,
    then "Private video", then "Video unavailable", and falls back to the
    generic message. *)
Theorem classify_error_precedence (msg : string) :
  (contains "Sign in to confirm you're not a bot" msg = true ->
     classify_error msg = bot_msg) /\
  (contains "Sign in to confirm you're not a bot" msg = false ->
   contains "Private video" msg = true ->
     classify_error msg = private_msg) /\
  (contains "Sign in to confirm you're not a bot" msg = false ->
   contains "Private video" msg = false ->
   contains "Video unavailable" msg = true ->
     classify_error msg = unavailable_msg) /\
  (contains "Sign in to confirm you're not a bot" msg = false ->
   contains "Private video" msg = false ->
   contains "Video unavailable" msg = false ->
     classify_error msg = "Download failed: " ++ msg).
Proof.
  unfold classify_error; repeat split; intros;
  repeat match goal with H : contains _ _ = _ |- _ => rewrite H; clear H end;
  reflexivity.
Qed.

(** [retry_opts] changes the option [quiet] only. *)
Lemma retry_opts_only_quiet (o o' : ydl_opts) :
  o_quiet o' = o_quiet o -> retry_opts o' = retry_opts o -> o' = o.
Proof.
  destruct o, o'; unfold retry_opts; simpl; intros -> H; inversion H; subst; reflexivity.
Qed.

Lemma first_existing_none (f : fs) (reqs : list (option path)) :
  none_exists f reqs -> first_existing f reqs = None.
Proof.
  induction 1 as [|[q|] reqs Hq _ IH]; simpl; auto; now rewrite Hq.
Qed.

Lemma first_existing_first (f : fs) (pre post : list (option path)) (p : path) :
  none_exists f pre -> fs_exists p f = true ->
  first_existing f (pre ++ Some p :: post)%list = Some p.
Proof.
  intros Hpre Hp; induction Hpre as [|[q|] pre Hq _ IH]; simpl; auto.
  - now rewrite Hp.
  - now rewrite Hq.
Qed.

(* ------------------------------------------------------------------ *)
(** ** Claims on the pipeline *)

Section Properties.

Variable which : string -> bool.
Variable speedtest : speedtest_run.
Variable extract_info : ydl_opts -> string -> fs -> fs * ydl_result.
Variable ffmpeg : fs -> list string -> encoder_exit.

(** C1: the first attempt runs with [quiet = True]; the retry options
    differ from it in [quiet] only.  What follows depends on the first
    attempt: (i) its constructor raises: the pipeline fails at once with the
    classification of the message, no retry; (ii) [extract_info] returns
    [None] (how yt-dlp reports an extraction error under
    [ignoreerrors=True]): no retry, and the pipeline fails with the
    [TypeError] of line 154, unclassified; (iii) it returns a result: no
    retry; (iv) [extract_info] raises: exactly one retry, whose returned
    value is the result, and whose exception fails the pipeline, without a
    further call, with its classification: one of the four messages, the
    bot-verification one whenever the bot-verification substring is in
    it. *)
Theorem extraction_retry_once (url : string) (output_dir : option string)
    (convert_to_mp3 keep_original progress_hook : bool) (f0 f1 : fs) (r1 : ydl_result) :
  let o := build_opts which speedtest (out_dir output_dir) progress_hook in
  mkdir_blocked (out_dir output_dir) f0 = false ->
  extract_info o url f0 = (f1, r1) ->
  let res := run which speedtest extract_info ffmpeg url output_dir convert_to_mp3
               keep_original progress_hook f0 in
  o_quiet o = true /\ o_quiet (retry_opts o) = false /\ set_quiet true (retry_opts o) = o /\
  match r1 with
  | InitRaised e1 =>
      res = Raise (RuntimeError (classify_error e1)) (mk_state f1 [EvExtract o])
  | Returned None =>
      res = Raise (TypeError none_type_msg) (mk_state f1 [EvExtract o])
  | Returned (Some i) =>
      extract_with_retry extract_info o url (mk_state f0 []) =
      Ok (Some i) (mk_state f1 [EvExtract o])
  | ExtractRaised _ =>
      match extract_info (retry_opts o) url f1 with
      | (f2, Returned r) =>
          extract_with_retry extract_info o url (mk_state f0 []) =
          Ok r (mk_state f2 [EvExtract (retry_opts o); EvExtract o])
      | (f2, (InitRaised e2 | ExtractRaised e2)) =>
          res = Raise (RuntimeError (classify_error e2))
                  (mk_state f2 [EvExtract (retry_opts o); EvExtract o]) /\
          (classify_error e2 = bot_msg \/ classify_error e2 = private_msg \/
           classify_error e2 = unavailable_msg \/
           classify_error e2 = "Download failed: " ++ e2) /\
          (contains "Sign in to confirm you're not a bot" e2 = true ->
           classify_error e2 = bot_msg)
      end
  end.
Proof.
  cbv zeta; intros Hm H.
  split; [reflexivity|]; split; [reflexivity|]; split; [reflexivity|].
  assert (Hcls : forall e2,
            (classify_error e2 = bot_msg \/ classify_error e2 = private_msg \/
             classify_error e2 = unavailable_msg \/
             classify_error e2 = "Download failed: " ++ e2) /\
            (contains "Sign in to confirm you're not a bot" e2 = true ->
             classify_error e2 = bot_msg)).
  { intros e2; split; [|unfold classify_error; intros ->; reflexivity].
    unfold classify_error.
    destruct (contains "Sign in to confirm you're not a bot" e2); [now left|].
    destruct (contains "Private video" e2); [now right; left|].
    destruct (contains "Video unavailable" e2); [now right; right; left|].
    now right; right; right. }
  destruct r1 as [e1|e1|[i|]].
  - unfold run, download_audio_from_youtube; fold (out_dir output_dir).
    unfold bind at 1, mkdir_p; cbn [st_fs]; rewrite Hm; cbv beta iota.
    unfold fetch_and_locate, extract_with_retry, call_extract, bind, raise, ret;
      cbn [st_fs st_log]; rewrite H; reflexivity.
  - destruct (extract_info (retry_opts (build_opts which speedtest (out_dir output_dir)
                progress_hook)) url f1) as [f2 [e2|e2|r]] eqn:H2.
    1, 2: split; [|apply Hcls];
      unfold run, download_audio_from_youtube; fold (out_dir output_dir);
      unfold bind at 1, mkdir_p; cbn [st_fs]; rewrite Hm; cbv beta iota;
      unfold fetch_and_locate, extract_with_retry, call_extract, bind, raise, ret;
      cbn [st_fs st_log]; rewrite H; cbn [st_fs st_log]; rewrite H2; reflexivity.
    unfold extract_with_retry, call_extract, bind, raise, ret; cbn [st_fs st_log].
    rewrite H; cbn [st_fs st_log]; rewrite H2; reflexivity.
  - unfold extract_with_retry, call_extract, bind, ret; cbn [st_fs st_log].
    rewrite H; reflexivity.
  - unfold run, download_audio_from_youtube; fold (out_dir output_dir).
    unfold bind at 1, mkdir_p; cbn [st_fs]; rewrite Hm; cbv beta iota.
    unfold fetch_and_locate, extract_with_retry, call_extract, bind, raise, ret;
      cbn [st_fs st_log]; rewrite H; reflexivity.
Qed.


(** C2: the file detection takes (a) the first item of
    ["requested_downloads"] whose ["filepath"] exists, else (b) the
    top-level ["filepath"] if it exists, else (c) the entry of the output
    directory with the largest mtime, file or subdirectory alike (the first
    one listed on a tie); when the directory is empty too, the pipeline
    fails with the "file not found" error, from the state the extraction
    left, with no further call. *)
Theorem locate_file_order (url : string) (output_dir : option string)
    (convert_to_mp3 keep_original progress_hook : bool) (f0 : fs)
    (out : string) (i : info) (f : fs) :
  (forall reqs pre p post,
     i_requested_downloads i = Some reqs -> reqs = (pre ++ Some p :: post)%list ->
     fs_exists p f = true -> none_exists f pre ->
     locate_file out i f = Some p) /\
  (let no_req := match i_requested_downloads i with
                 | Some reqs => none_exists f reqs | None => True end in
   let no_top := match i_filepath i with
                 | Some (Some q) => fs_exists q f = false | _ => True end in
   (forall p, no_req -> i_filepath i = Some (Some p) -> fs_exists p f = true ->
      locate_file out i f = Some p) /\
   (forall pre e post, no_req -> no_top -> glob_all out f = (pre ++ e :: post)%list ->
      Forall (fun x => (m_mtime (snd x) < m_mtime (snd e))%Z) pre ->
      Forall (fun x => (m_mtime (snd x) <= m_mtime (snd e))%Z) post ->
      locate_file out i f = Some (fst e)) /\
   (no_req -> no_top -> glob_all out f = [] -> locate_file out i f = None)) /\
  (forall s1 i1,
     mkdir_blocked (out_dir output_dir) f0 = false ->
     extract_with_retry extract_info
       (build_opts which speedtest (out_dir output_dir) progress_hook) url
       (mk_state f0 []) = Ok (Some i1) s1 ->
     locate_file (out_dir output_dir) i1 (st_fs s1) = None ->
     run which speedtest extract_info ffmpeg url output_dir convert_to_mp3
       keep_original progress_hook f0 = Raise (RuntimeError not_found_msg) s1).
Proof.
  split; [|split].
  - intros reqs pre p post Hr -> Hp Hpre; unfold locate_file; rewrite Hr.
    now rewrite first_existing_first.
  - cbv zeta; unfold locate_file.
    assert (Hreq : match i_requested_downloads i with
                   | Some reqs => none_exists f reqs | None => True end ->
                   match i_requested_downloads i with
                   | Some reqs => first_existing f reqs | None => None end = None)
      by (destruct (i_requested_downloads i); auto using first_existing_none).
    repeat split.
    + intros p Hn Ht Hp; rewrite (Hreq Hn), Ht, Hp; reflexivity.
    + intros pre e post Hn Ht Hg Hpre Hpost; rewrite (Hreq Hn).
      replace (match i_filepath i with
               | Some (Some fp) => if fs_exists fp f then Some fp else None
               | _ => None end) with (@None path)
        by (destruct (i_filepath i) as [[q|]|]; auto; now rewrite Ht).
      rewrite Hg; destruct pre as [|x pre]; simpl.
      * now rewrite max_mtime_from_keep by
          (eapply Forall_impl; [|exact Hpost]; simpl; intros; lia).
      * inversion Hpre; subst.
        now rewrite max_mtime_from_pick.
    + intros Hn Ht Hg; rewrite (Hreq Hn).
      replace (match i_filepath i with
               | Some (Some fp) => if fs_exists fp f then Some fp else None
               | _ => None end) with (@None path)
        by (destruct (i_filepath i) as [[q|]|]; auto; now rewrite Ht).
      now rewrite Hg.
  - intros s1 i1 Hm He Hl.
    unfold run, download_audio_from_youtube; fold (out_dir output_dir).
    unfold bind at 1, mkdir_p; cbn [st_fs]; rewrite Hm; cbv beta iota.
    unfold fetch_and_locate, locate_stage, get_fs, bind, raise, ret.
    rewrite He; destruct s1 as [f1 l1]; cbn [st_fs] in *; now rewrite Hl.
Qed.


Lemma keeps_bind {A B} (d : string) (m : M A) (k : A -> M B) :
  keeps d m -> (forall a, keeps d (k a)) -> keeps d (bind m k).
Proof.
  intros Hm Hk s Hs; unfold bind; specialize (Hm s Hs).
  destruct (m s) as [a s'|e s']; simpl in *; auto; now apply Hk.
Qed.

Lemma keeps_ret {A} (d : string) (a : A) : keeps d (ret a).
Proof. intros s Hs; exact Hs. Qed.

Lemma keeps_raise {A} (d : string) (e : exn) : keeps d (@raise A e).
Proof. intros s Hs; exact Hs. Qed.

Lemma keeps_get_fs (d : string) : keeps d get_fs.
Proof. intros s Hs; exact Hs. Qed.

Lemma keeps_unlink (d : string) (p : path) : keeps d (unlink p).
Proof.
  intros s Hs; unfold unlink.
  destruct (fs_lookup p (st_fs s)) as [m|]; [destruct (m_is_dir m)|]; simpl; auto.
  intros argv out snap [E|H]; [discriminate | auto].
Qed.

Lemma keeps_call_extract (d : string) (o : ydl_opts) (url : string) :
  keeps d (call_extract extract_info o url).
Proof.
  intros s Hs; unfold call_extract.
  destruct (extract_info o url (st_fs s)); simpl.
  intros argv out snap [E|H]; [discriminate | auto].
Qed.

Lemma keeps_mkdir (d out : string) : keeps d (mkdir_p out).
Proof.
  intros s Hs; unfold mkdir_p.
  destruct (mkdir_blocked out (st_fs s)); [destruct (existsb _ _)|]; exact Hs.
Qed.

Create HintDb keeps.
#[local] Hint Resolve keeps_ret keeps_raise keeps_get_fs keeps_unlink
  keeps_call_extract : keeps.

Lemma keeps_fetch_and_locate (d url out : string) (progress_hook : bool) :
  keeps d (fetch_and_locate which speedtest extract_info url out progress_hook).
Proof.
  unfold fetch_and_locate, extract_with_retry, locate_stage.
  apply keeps_bind.
  - apply keeps_bind; [eauto with keeps|intros [e|e|r]; eauto with keeps].
    apply keeps_bind; [eauto with keeps|intros [e'|e'|r]; eauto with keeps].
  - intros [i|]; [|eauto with keeps].
    apply keeps_bind; [|eauto with keeps].
    apply keeps_bind; [eauto with keeps|intros f; destruct (locate_file out i f);
      eauto with keeps].
Qed.

(** The removal of a stale MP3 leaves no entry at its path. *)
Lemma remove_stale_ok (mp3 : path) (s s2 : state) (u : unit) :
  (if fs_exists mp3 (st_fs s) then unlink mp3 else ret tt) s = Ok u s2 ->
  fs_exists mp3 (st_fs s2) = false /\ st_log s2 = st_log s \/
  fs_exists mp3 (st_fs s2) = false /\ st_log s2 = EvUnlink mp3 :: st_log s.
Proof.
  destruct (fs_exists mp3 (st_fs s)) eqn:E.
  - unfold unlink; destruct (fs_lookup mp3 (st_fs s)) as [m|] eqn:L; [|discriminate].
    destruct (m_is_dir m); [discriminate|]; intros H; inversion H; subst; simpl.
    right; unfold fs_exists; now rewrite fs_lookup_remove_same.
  - unfold ret; intros H; inversion H; subst; now left.
Qed.

Lemma remove_stale_state (mp3 : path) (s : state) :
  st_log (state_of ((if fs_exists mp3 (st_fs s) then unlink mp3 else ret tt) s)) = st_log s \/
  st_log (state_of ((if fs_exists mp3 (st_fs s) then unlink mp3 else ret tt) s))
    = EvUnlink mp3 :: st_log s.
Proof.
  destruct (fs_exists mp3 (st_fs s)); [|now left].
  unfold unlink; destruct (fs_lookup mp3 (st_fs s)) as [m|]; [destruct (m_is_dir m)|];
    simpl; auto.
Qed.

Lemma run_encoder_keeps (d : string) (inp out : path) (s : state) :
  out = mk_path d (p_stem inp) ".mp3" -> fs_exists out (st_fs s) = false ->
  spawn_ok d (st_log s) -> spawn_ok d (st_log (state_of (run_encoder ffmpeg inp out s))).
Proof.
  intros Hout Hfree Hs; unfold run_encoder.
  destruct (fs_lookup inp (st_fs s)) as [m|];
    [destruct (m_is_dir m); [|destruct (ffmpeg (st_fs s) (ffmpeg_cmd inp out))]|];
    simpl; intros argv out' snap [E|H]; auto; inversion E; subst;
    (split; [eexists; split; reflexivity | split; [exact Hfree | simpl; auto]]).
Qed.

Lemma keeps_convert_stage (d : string) (df : path) (keep_original : bool)
    (files : list file_entry) :
  keeps d (convert_stage which ffmpeg d df keep_original files).
Proof.
  intros s Hs; unfold convert_stage, check_tool_exists.
  destruct (which "ffmpeg"); simpl; [|exact Hs].
  unfold bind at 1, get_fs.
  set (mp3 := mk_path d (p_stem df) ".mp3").
  assert (Hunl : forall l, spawn_ok d l -> spawn_ok d (EvUnlink mp3 :: l))
    by (intros l Hl argv out snap [E|H]; [discriminate | auto]).
  pose proof (remove_stale_state mp3 s) as Hst.
  unfold bind at 1.
  destruct ((if fs_exists mp3 (st_fs s) then unlink mp3 else ret tt) s) as [u s2|e s2]
    eqn:E; simpl in Hst |- *.
  2: destruct Hst as [-> | ->]; auto.
  assert (H2 : fs_exists mp3 (st_fs s2) = false /\ spawn_ok d (st_log s2))
    by (apply remove_stale_ok in E as [[Hfree Hl] | [Hfree Hl]]; rewrite Hl; auto).
  destruct H2 as [Hfree Hs2].
  unfold bind at 1.
  pose proof (run_encoder_keeps d df mp3 s2 eq_refl Hfree Hs2) as Hs3.
  destruct (run_encoder ffmpeg df mp3 s2) as [u' s3|e s3]; simpl in Hs3 |- *.
  2: exact Hs3.
  revert s3 Hs3; apply keeps_bind; [apply keeps_get_fs|]; intros f1.
  destruct (negb keep_original && fs_exists df f1).
  - apply keeps_bind; [apply keeps_unlink | intros; apply keeps_ret].
  - apply keeps_ret.
Qed.

(** What a successful conversion stage did. *)
Lemma convert_stage_ok (d : string) (df : path) (keep_original : bool)
    (files files' : list file_entry) (s s' : state) :
  convert_stage which ffmpeg d df keep_original files s = Ok files' s' ->
  let mp3 := mk_path d (p_stem df) ".mp3" in
  exists f_pre size mtime,
    fs_exists mp3 f_pre = false /\ fs_exists df f_pre = true /\
    In (EvSpawnEncoder (ffmpeg_cmd df mp3) mp3 f_pre) (st_log s') /\
    files' = (if keep_original
              then files ++ [mp3_entry mp3 (fs_write mp3 size mtime f_pre)]
              else filter not_original
                     (files ++ [mp3_entry mp3 (fs_write mp3 size mtime f_pre)]))%list /\
    (keep_original = false ->
     In (EvUnlink df) (st_log s') /\ fs_exists df (st_fs s') = false).
Proof.
  intros H; cbv zeta.
  unfold convert_stage, check_tool_exists in H.
  destruct (which "ffmpeg"); simpl in H; [|discriminate].
  set (mp3 := mk_path d (p_stem df) ".mp3") in *.
  unfold bind at 1, get_fs in H; unfold bind at 1 in H.
  destruct ((if fs_exists mp3 (st_fs s) then unlink mp3 else ret tt) s) as [u s2|e s2]
    eqn:E; [|discriminate].
  assert (Hfree : fs_exists mp3 (st_fs s2) = false)
    by (apply remove_stale_ok in E as [[? _] | [? _]]; assumption).
  clear E; unfold bind at 1 in H; unfold run_encoder in H.
  destruct (fs_lookup df (st_fs s2)) as [m|] eqn:Ld; [|discriminate].
  destruct (m_is_dir m) eqn:Dm; [discriminate|].
  destruct (ffmpeg (st_fs s2) (ffmpeg_cmd df mp3)) as [sz mt|err] eqn:Ff; [|discriminate].
  unfold bind, get_fs in H; cbn [st_fs st_log] in H.
  assert (Hne : path_eqb mp3 df = false).
  { destruct (path_eqb mp3 df) eqn:Q; [|reflexivity].
    apply path_eqb_eq in Q; rewrite Q in Hfree; unfold fs_exists in Hfree;
      rewrite Ld in Hfree; discriminate. }
  assert (Hmp3 : fs_exists mp3 (fs_write mp3 sz mt (st_fs s2)) = true)
    by (unfold fs_exists; now rewrite fs_lookup_write_same).
  assert (Ldf : fs_lookup df (fs_write mp3 sz mt (st_fs s2)) = Some m)
    by (rewrite fs_lookup_write_other by exact Hne; exact Ld).
  rewrite Hmp3 in H.
  exists (st_fs s2), sz, mt.
  split; [exact Hfree|]; split; [unfold fs_exists; now rewrite Ld|].
  destruct keep_original; simpl in H.
  - unfold ret in H; inversion H; subst; simpl.
    split; [now left|]; split; [reflexivity | discriminate].
  - unfold fs_exists at 1 in H; rewrite Ldf in H.
    unfold unlink in H; cbn [st_fs st_log] in H; rewrite Ldf, Dm in H.
    unfold ret in H; inversion H; subst; simpl.
    split; [right; now left|]; split; [reflexivity|].
    intros _; split; [now left|].
    unfold fs_exists; now rewrite fs_lookup_remove_same.
Qed.

Lemma fetch_ok_exists (url out : string) (progress_hook : bool) (s s1 : state)
    (i : info) (p : path) :
  fetch_and_locate which speedtest extract_info url out progress_hook s = Ok (i, p) s1 ->
  fs_exists p (st_fs s1) = true.
Proof.
  unfold fetch_and_locate, bind at 1.
  destruct (extract_with_retry extract_info
              (build_opts which speedtest out progress_hook) url s) as [[i'|] s'|];
    [|unfold raise; discriminate|discriminate].
  unfold locate_stage, bind, get_fs, ret, raise.
  destruct (locate_file out i' (st_fs s')) eqn:L; [|discriminate].
  intros H; inversion H; subst; eapply locate_file_exists; exact L.
Qed.

(** Up to the located file, the only effects are calls of the extraction
    library. *)
Lemma fetch_log (url out : string) (progress_hook : bool) (s : state) :
  exists l,
    st_log (state_of (fetch_and_locate which speedtest extract_info url out
                        progress_hook s)) = (l ++ st_log s)%list /\
    Forall is_extract l.
Proof.
  unfold fetch_and_locate, extract_with_retry, locate_stage, call_extract,
    bind, get_fs, ret, raise.
  destruct (extract_info (build_opts which speedtest out progress_hook) url (st_fs s))
    as [f1 [e|e|[i|]]]; cbn [st_fs st_log].
  - eexists [_]; split; [reflexivity | repeat constructor].
  - destruct (extract_info (retry_opts (build_opts which speedtest out progress_hook))
                url f1) as [f2 [e2|e2|[i|]]]; cbn [st_fs st_log];
      try (eexists [_; _]; split; [reflexivity | repeat constructor]).
    destruct (locate_file out i f2); (eexists [_; _]; split;
        [reflexivity | repeat constructor]).
  - destruct (locate_file out i f1); (eexists [_]; split;
      [reflexivity | repeat constructor]).
  - eexists [_]; split; [reflexivity | repeat constructor].
Qed.

(** A successful call: the located file exists, so [files] starts with
    its ["original"] entry, and the conversion stage (if requested) takes
    over from the state the file detection left. *)
Lemma run_ok (url : string) (output_dir : option string)
    (convert_to_mp3 keep_original progress_hook : bool) (f0 : fs) (r : result) (s' : state) :
  run which speedtest extract_info ffmpeg url output_dir convert_to_mp3 keep_original
    progress_hook f0 = Ok r s' ->
  exists i df s1,
    fetch_and_locate which speedtest extract_info url (out_dir output_dir) progress_hook
      (mk_state f0 []) = Ok (i, df) s1 /\
    (convert_to_mp3 = false -> r_files r = [original_entry df (st_fs s1)] /\ s' = s1) /\
    (convert_to_mp3 = true ->
     convert_stage which ffmpeg (out_dir output_dir) df keep_original
       [original_entry df (st_fs s1)] s1 = Ok (r_files r) s').
Proof.
  unfold run, download_audio_from_youtube; fold (out_dir output_dir).
  unfold bind at 1, mkdir_p; cbn [st_fs].
  destruct (mkdir_blocked (out_dir output_dir) f0);
    [destruct (existsb _ _); discriminate|cbv beta iota].
  unfold bind at 1.
  destruct (fetch_and_locate which speedtest extract_info url (out_dir output_dir)
              progress_hook (mk_state f0 [])) as [[i df] s1|] eqn:F; [|discriminate].
  pose proof (fetch_ok_exists _ _ _ _ _ _ _ F) as Hex.
  unfold bind at 1, get_fs; rewrite Hex; intros H.
  exists i, df, s1; split; [reflexivity|].
  destruct convert_to_mp3.
  - split; [discriminate|]; intros _.
    unfold bind in H.
    destruct (convert_stage which ffmpeg (out_dir output_dir) df keep_original
                [original_entry df (st_fs s1)] s1) as [files s2|]; [|discriminate].
    unfold ret in H; inversion H; subst; reflexivity.
  - split; [|discriminate]; intros _; unfold ret in H; inversion H; subst; auto.
Qed.

(** C4: with [convert_to_mp3 = true] and [keep_original = false], a
    successful call reports exactly one ["mp3"] entry and no ["original"]
    entry, and the encoder's input file has been deleted. *)
Theorem convert_drop_original_files (url : string) (output_dir : option string)
    (progress_hook : bool) (f0 : fs) (r : result) (s' : state) :
  run which speedtest extract_info ffmpeg url output_dir true false progress_hook f0
    = Ok r s' ->
  count_type "mp3" (r_files r) = 1%nat /\ count_type "original" (r_files r) = 0%nat /\
  exists df mp3 snap,
    In (EvSpawnEncoder (ffmpeg_cmd df mp3) mp3 snap) (st_log s') /\
    In (EvUnlink df) (st_log s') /\ fs_exists df (st_fs s') = false.
Proof.
  intros H; apply run_ok in H as (i & df & s1 & _ & _ & Hc).
  specialize (Hc eq_refl); apply convert_stage_ok in Hc.
  destruct Hc as (f_pre & sz & mt & _ & _ & Hsp & Hfiles & Hdel).
  rewrite Hfiles; destruct (Hdel eq_refl) as [Hu Hgone].
  split; [reflexivity|]; split; [reflexivity|].
  eexists _, _, _; eauto.
Qed.

(** C5: with [convert_to_mp3 = false], a successful call reports exactly
    one entry, of type ["original"]. *)
Theorem no_convert_single_original (url : string) (output_dir : option string)
    (keep_original progress_hook : bool) (f0 : fs) (r : result) (s' : state) :
  run which speedtest extract_info ffmpeg url output_dir false keep_original
    progress_hook f0 = Ok r s' ->
  exists e, r_files r = [e] /\ f_type e = "original".
Proof.
  intros H; apply run_ok in H as (i & df & s1 & _ & Hc & _).
  destruct (Hc eq_refl) as [-> _]; eexists; split; reflexivity.
Qed.

(** C6: every successful call reports at most one ["original"] entry and
    at most one ["mp3"] entry. *)
Theorem files_at_most_one_each (url : string) (output_dir : option string)
    (convert_to_mp3 keep_original progress_hook : bool) (f0 : fs) (r : result)
    (s' : state) :
  run which speedtest extract_info ffmpeg url output_dir convert_to_mp3 keep_original
    progress_hook f0 = Ok r s' ->
  (count_type "original" (r_files r) <= 1)%nat /\ (count_type "mp3" (r_files r) <= 1)%nat.
Proof.
  intros H; apply run_ok in H as (i & df & s1 & _ & Hn & Hc).
  destruct convert_to_mp3.
  - apply (fun h => convert_stage_ok _ _ _ _ _ _ _ h) in Hc; [|reflexivity].
    destruct Hc as (f_pre & sz & mt & _ & _ & _ & -> & _).
    destruct keep_original; compute; split; auto.
  - destruct (Hn eq_refl) as [-> _]; compute; split; auto.
Qed.

(** C7: when the conversion runs, an entry at the target MP3 path (same
    stem, [".mp3"], output directory) is deleted before the encoder starts:
    every spawn of the encoder writes that path, with [-y], and the
    filesystem the encoder sees has no entry there. *)
Theorem encoder_sees_no_stale_mp3 (url : string) (output_dir : option string)
    (convert_to_mp3 keep_original progress_hook : bool) (f0 : fs)
    (argv : list string) (out : path) (snap : fs) :
  In (EvSpawnEncoder argv out snap)
     (st_log (state_of (run which speedtest extract_info ffmpeg url output_dir
                          convert_to_mp3 keep_original progress_hook f0))) ->
  (exists inp, argv = ffmpeg_cmd inp out /\
               out = mk_path (out_dir output_dir) (p_stem inp) ".mp3") /\
  fs_exists out snap = false /\ In "-y" argv.
Proof.
  revert argv out snap.
  assert (Hk : keeps (out_dir output_dir)
                 (download_audio_from_youtube which speedtest extract_info ffmpeg url
                    output_dir convert_to_mp3 keep_original progress_hook)).
  { unfold download_audio_from_youtube; fold (out_dir output_dir).
    apply keeps_bind; [apply keeps_mkdir|]; intros _.
    apply keeps_bind; [apply keeps_fetch_and_locate|]; intros [i df].
    apply keeps_bind; [apply keeps_get_fs|]; intros f.
    destruct convert_to_mp3; [|apply keeps_ret].
    apply keeps_bind; [apply keeps_convert_stage | intros; apply keeps_ret]. }
  apply Hk; intros ? ? ? [].
Qed.

(** C8: with [convert_to_mp3 = true] and no encoder installed, a call
    never spawns the encoder; when it reaches the conversion step (the
    output directory created, the extraction and the file detection done)
    it fails with the "MP3 conversion unavailable" error from exactly the
    state the download left: nothing is called or retried after the
    check. *)
Theorem encoder_missing_fails (url : string) (output_dir : option string)
    (keep_original progress_hook : bool) (f0 : fs) :
  which "ffmpeg" = false ->
  (forall argv out snap,
     ~ In (EvSpawnEncoder argv out snap)
         (st_log (state_of (run which speedtest extract_info ffmpeg url output_dir
                              true keep_original progress_hook f0)))) /\
  (forall i df s1,
     mkdir_blocked (out_dir output_dir) f0 = false ->
     fetch_and_locate which speedtest extract_info url (out_dir output_dir)
       progress_hook (mk_state f0 []) = Ok (i, df) s1 ->
     run which speedtest extract_info ffmpeg url output_dir true keep_original
       progress_hook f0 = Raise (RuntimeError ffmpeg_missing_msg) s1).
Proof.
  intros Hw.
  assert (Hrun : mkdir_blocked (out_dir output_dir) f0 = false ->
                 run which speedtest extract_info ffmpeg url output_dir true keep_original
                   progress_hook f0 =
                 match fetch_and_locate which speedtest extract_info url
                         (out_dir output_dir) progress_hook (mk_state f0 []) with
                 | Ok _ s1 => Raise (RuntimeError ffmpeg_missing_msg) s1
                 | Raise e s1 => Raise e s1
                 end).
  { intros Hm; unfold run, download_audio_from_youtube; fold (out_dir output_dir).
    unfold bind at 1, mkdir_p; cbn [st_fs]; rewrite Hm; cbv beta iota.
    unfold bind at 1.
    destruct (fetch_and_locate which speedtest extract_info url (out_dir output_dir)
                progress_hook (mk_state f0 [])) as [[i df] s1|e s1]; [|reflexivity].
    unfold bind, get_fs, convert_stage, check_tool_exists; rewrite Hw; reflexivity. }
  split.
  - intros argv out snap Hin.
    destruct (mkdir_blocked (out_dir output_dir) f0) eqn:Hm.
    + unfold run, download_audio_from_youtube in Hin; fold (out_dir output_dir) in Hin.
      unfold bind at 1, mkdir_p in Hin; cbn [st_fs] in Hin; rewrite Hm in Hin.
      destruct (existsb _ _); simpl in Hin; exact Hin.
    + rewrite (Hrun eq_refl) in Hin.
      destruct (fetch_log url (out_dir output_dir) progress_hook (mk_state f0 []))
        as (l & Hl & Hx).
      rewrite app_nil_r in Hl; rewrite Forall_forall in Hx.
      destruct (fetch_and_locate which speedtest extract_info url (out_dir output_dir)
                  progress_hook (mk_state f0 [])) as [a s1|e s1];
        simpl in Hl, Hin; rewrite Hl in Hin; exact (Hx _ Hin).
  - intros i df s1 Hm F; rewrite (Hrun Hm), F; reflexivity.
Qed.

End Properties.

(* ------------------------------------------------------------------ *)
(** ** Witnesses and counterexamples *)

Import Scenario.

(** C1 at a concrete input: both attempts raise the bot-verification
    message, and the call fails with the bot-verification error after
    exactly two attempts. *)
Lemma extraction_retry_once_witness :
  let o := build_opts which_none SpeedRaised (out_dir None) false in
  mkdir_blocked (out_dir None) [] = false /\
  extract_raising bot_error o "u" [] = ([], ExtractRaised bot_error) /\
  run which_none SpeedRaised (extract_raising bot_error) ffmpeg_ok "u" None false true
    false [] =
  Raise (RuntimeError bot_msg) (mk_state [] [EvExtract (retry_opts o); EvExtract o]).
Proof.
  cbv zeta; split; [reflexivity|]; split; [reflexivity|].
  pose proof (proj2 (proj2 (proj2 (extraction_retry_once which_none SpeedRaised
    (extract_raising bot_error) ffmpeg_ok "u" None false true false [] []
    (ExtractRaised bot_error) eq_refl eq_refl)))) as T.
  unfold extract_raising in T |- *; cbv beta iota in T.
  destruct T as [T [_ Hb]]; rewrite T, Hb by reflexivity; reflexivity.
Defined.

(** C1 fails: under [ignoreerrors=True] yt-dlp reports an extraction
    error (a bot-verification request, say) and [extract_info] returns
    [None].  The first attempt is then the only one, and the call fails
    with the [TypeError] of line 154 rather than a classified error. *)
Lemma extraction_error_not_retried :
  run which_all SpeedRaised extract_none ffmpeg_ok "u" None false true false [] =
  Raise (TypeError none_type_msg)
    (mk_state [] [EvExtract (build_opts which_all SpeedRaised DOWNLOADS_DIR false)]).
Proof. vm_compute; reflexivity. Qed.

(** C2 fails: with no file named by the extraction result, the newest
    entry of the output directory is taken even when it is a
    subdirectory, and the call reports that directory as the
    ["original"] file although a regular file is there. *)
Lemma locate_file_picks_directory :
  locate_file "downloads" info_bare dir_with_subdir = Some subdir /\
  fs_lookup subdir dir_with_subdir = Some (mk_meta 2 4096 true) /\
  fs_lookup webm dir_with_subdir = Some (mk_meta 1 4000000 false) /\
  match run which_none SpeedRaised (fun _ _ f => (f, Returned (Some info_bare))) ffmpeg_ok
          "u" None
          false true false dir_with_subdir with
  | Ok r _ => r_files r = [mk_entry "covers" "original" 4096 ""]
  | Raise _ _ => False
  end.
Proof. vm_compute; repeat split; reflexivity. Qed.

(** C4 at a concrete input: an MP3 is produced and the original dropped. *)
Lemma convert_drop_original_files_witness :
  match run which_all SpeedRaised extract_song ffmpeg_ok "u" None true false false [] with
  | Ok r _ => count_type "mp3" (r_files r) = 1%nat
  | Raise _ _ => False
  end.
Proof.
  destruct (run which_all SpeedRaised extract_song ffmpeg_ok "u" None true false false [])
    as [r s'|e s'] eqn:E.
  - exact (proj1 (convert_drop_original_files which_all SpeedRaised extract_song ffmpeg_ok
                    "u" None false [] r s' E)).
  - vm_compute in E; discriminate.
Defined.

(** C5 at a concrete input. *)
Lemma no_convert_single_original_witness :
  match run which_all SpeedRaised extract_song ffmpeg_ok "u" None false true false [] with
  | Ok r _ => exists e, r_files r = [e] /\ f_type e = "original"
  | Raise _ _ => False
  end.
Proof.
  destruct (run which_all SpeedRaised extract_song ffmpeg_ok "u" None false true false [])
    as [r s'|e s'] eqn:E.
  - exact (no_convert_single_original which_all SpeedRaised extract_song ffmpeg_ok
             "u" None true false [] r s' E).
  - vm_compute in E; discriminate.
Defined.

(** C6 at a concrete input (conversion keeping the original). *)
Lemma files_at_most_one_each_witness :
  match run which_all SpeedRaised extract_song ffmpeg_ok "u" None true true false [] with
  | Ok r _ => (count_type "original" (r_files r) <= 1)%nat /\
              (count_type "mp3" (r_files r) <= 1)%nat
  | Raise _ _ => False
  end.
Proof.
  destruct (run which_all SpeedRaised extract_song ffmpeg_ok "u" None true true false [])
    as [r s'|e s'] eqn:E.
  - exact (files_at_most_one_each which_all SpeedRaised extract_song ffmpeg_ok
             "u" None true true false [] r s' E).
  - vm_compute in E; discriminate.
Defined.

(** C7 at a concrete input: a stale [Song.mp3] is in the directory, and
    the last effect of the call is the spawn of the encoder. *)
Lemma encoder_sees_no_stale_mp3_witness :
  match st_log (state_of (run which_all SpeedRaised extract_song ffmpeg_ok "u" None
                            true true false dir_with_stale_mp3)) with
  | EvSpawnEncoder argv out snap :: _ => fs_exists out snap = false
  | _ => False
  end.
Proof.
  destruct (st_log (state_of (run which_all SpeedRaised extract_song ffmpeg_ok "u" None
                                true true false dir_with_stale_mp3)))
    as [|[o|p|argv out snap] l] eqn:E;
    try (exfalso; vm_compute in E; discriminate).
  refine (proj1 (proj2 (encoder_sees_no_stale_mp3 which_all SpeedRaised extract_song
            ffmpeg_ok "u" None true true false dir_with_stale_mp3 argv out snap _))).
  rewrite E; now left.
Defined.

(** C8 at a concrete input: the download succeeds, then the missing
    encoder is reported. *)
Lemma encoder_missing_fails_witness :
  which_none "ffmpeg" = false /\
  match run which_none SpeedRaised extract_song ffmpeg_ok "u" None true false false [] with
  | Raise (RuntimeError m) _ => m = ffmpeg_missing_msg
  | _ => False
  end.
Proof.
  split; [reflexivity|].
  destruct (fetch_and_locate which_none SpeedRaised extract_song "u" (out_dir None) false
              (mk_state [] [])) as [[i df] s1|e s1] eqn:F.
  - rewrite (proj2 (encoder_missing_fails which_none SpeedRaised extract_song ffmpeg_ok
                      "u" None false false [] eq_refl) i df s1 eq_refl F).
    reflexivity.
  - exfalso; vm_compute in F; discriminate.
Defined.

(* ------------------------------------------------------------------ *)
(** ** Further properties of the code *)

Lemma string_app_assoc (a b c : string) : (a ++ b) ++ c = a ++ (b ++ c).
Proof. induction a as [|x a IH]; simpl; [reflexivity | now rewrite IH]. Qed.

Lemma round_half_even_Z (k : Z) : round_half_even (inject_Z k) = k.
Proof.
  unfold round_half_even; rewrite Qfloor_Z.
  replace (Qcompare (Qminus (inject_Z k) (inject_Z k)) (1#2)) with Lt; [reflexivity|].
  symmetry; apply (proj1 (Qlt_alt _ _)); unfold Qlt; simpl; lia.
Qed.

(** Rounding never leaves an interval with integer ends. *)
Lemma round_half_even_between (q : Q) (a b : Z) :
  inject_Z a <= q -> q <= inject_Z b -> (a <= round_half_even q <= b)%Z.
Proof.
  intros Ha Hb; unfold round_half_even.
  pose proof (Qfloor_resp_le _ _ Ha) as Hfa; rewrite Qfloor_Z in Hfa.
  pose proof (Qfloor_resp_le _ _ Hb) as Hfb; rewrite Qfloor_Z in Hfb.
  assert (Hup : Qlt (0#1) (Qminus q (inject_Z (Qfloor q))) -> (Qfloor q < b)%Z).
  { intros Hpos; rewrite Zlt_Qlt; apply Qlt_le_trans with q; [|exact Hb].
    apply Qlt_minus_iff in Hpos; exact Hpos. }
  assert (Hhalf : Qle (1#2) (Qminus q (inject_Z (Qfloor q))) -> (Qfloor q < b)%Z).
  { intros H; apply Hup; apply Qlt_le_trans with (1#2); [reflexivity | exact H]. }
  destruct (Qcompare (Qminus q (inject_Z (Qfloor q))) (1#2)) eqn:C.
  - apply Qeq_alt in C.
    destruct (Z.even (Qfloor q)); [lia|].
    assert (Qfloor q < b)%Z by (apply Hhalf; rewrite C; apply Qle_refl); lia.
  - lia.
  - apply Qgt_alt in C.
    assert (Qfloor q < b)%Z by (apply Hhalf; apply Qlt_le_weak; exact C); lia.
Qed.

Lemma Qle_bool_Z (x : Z) (p : positive) (y : Z) :
  Qle_bool (inject_Z x) (y # p) = (x * Z.pos p <=? y)%Z.
Proof. unfold Qle_bool; simpl; now rewrite Z.mul_1_r. Qed.

(** The loop of [human_readable_size] divides by 1024 once per unit. *)
Lemma hr_loop_ranges (n : Z) :
  hr_loop 4 (inject_Z n) 0 =
  if (n <? 1024)%Z then (inject_Z n, 0%nat)
  else if (n <? 1024 * 1024)%Z then (Qdiv (inject_Z n) (1024#1), 1%nat)
  else if (n <? 1024 * 1024 * 1024)%Z
  then (Qdiv (Qdiv (inject_Z n) (1024#1)) (1024#1), 2%nat)
  else (Qdiv (Qdiv (Qdiv (inject_Z n) (1024#1)) (1024#1)) (1024#1), 3%nat).
Proof.
  simpl hr_loop; rewrite ?andb_false_r, ?andb_true_r.
  repeat match goal with
         | |- context [Qle_bool ?a ?b] =>
             let E := fresh "E" in
             destruct (Qle_bool a b) eqn:E;
             [apply Qle_bool_iff in E | apply not_true_iff_false in E;
                                        rewrite Qle_bool_iff in E];
             unfold Qle in E; simpl in E
         end;
  repeat match goal with
         | |- context [Z.ltb ?a ?b] => destruct (Z.ltb_spec a b)
         end;
  try lia; reflexivity.
Qed.

(** Below 2^53 the conversion to a float is exact. *)
Lemma double_of_int_exact (n : Z) : (Z.abs n < 2 ^ 53)%Z -> double_of_int n = Some n.
Proof.
  intros Hn; unfold double_of_int.
  replace (Z.abs n <? 2 ^ 53)%Z with true by (symmetry; apply Z.ltb_lt; exact Hn).
  replace (2 ^ 1024 <=? Z.abs n)%Z with false.
  - f_equal; rewrite Z.mul_comm; apply Z.abs_sgn.
  - symmetry; apply Z.leb_gt.
    assert (H53 : (2 ^ 53 < 2 ^ 1024)%Z) by (apply Z.pow_lt_mono_r; lia); lia.
Qed.

(** [human_readable_size] prints a positive byte count below 1024 as
    that integer with [".00 B"]. *)
Theorem human_readable_size_small (n : Z) :
  (0 < n < 1024)%Z -> human_readable_size n = Some (str_of_Z n ++ ".00 B").
Proof.
  intros Hn; unfold human_readable_size.
  replace (n =? 0)%Z with false by (symmetry; apply Z.eqb_neq; lia).
  rewrite double_of_int_exact
    by (change (2 ^ 53)%Z with 9007199254740992%Z; lia).
  rewrite hr_loop_ranges; replace (n <? 1024)%Z with true by (symmetry; apply Z.ltb_lt; lia).
  unfold fmt_2f.
  replace (Qle_bool 0 (inject_Z n)) with true
    by (symmetry; apply Qle_bool_iff; unfold Qle; simpl; lia).
  change (Qmult (inject_Z n) (100#1)) with (inject_Z (n * 100)).
  rewrite round_half_even_Z; unfold fmt_hundredths.
  replace ((n * 100) / 100)%Z with n by (rewrite Z.div_mul; lia).
  replace ((n * 100) mod 100)%Z with 0%Z by (rewrite Z.mod_mul; lia).
  replace ((n * 100) mod 10)%Z with 0%Z
    by (replace (n * 100)%Z with ((n * 10) * 10)%Z by lia; rewrite Z.mod_mul; lia).
  rewrite string_app_assoc; reflexivity.
Qed.

(** For byte counts of magnitude below 2^53 (where the conversion to a
    float is exact), [human_readable_size] picks its unit by range: B below
    1024 (negative counts included), KB below 1024^2, MB below 1024^3 and
    GB from there on (there is no larger unit), and prints the count
    divided by 1024 once per unit step. *)
Theorem human_readable_size_unit (n : Z) :
  (Z.abs n < 2 ^ 53)%Z ->
  (n <> 0%Z -> (n < 1024)%Z ->
     human_readable_size n = Some (fmt_2f (inject_Z n) ++ " B")) /\
  ((1024 <= n < 1024 * 1024)%Z ->
     human_readable_size n = Some (fmt_2f (Qdiv (inject_Z n) (1024#1)) ++ " KB")) /\
  ((1024 * 1024 <= n < 1024 * 1024 * 1024)%Z ->
     human_readable_size n =
     Some (fmt_2f (Qdiv (Qdiv (inject_Z n) (1024#1)) (1024#1)) ++ " MB")) /\
  ((1024 * 1024 * 1024 <= n)%Z ->
     human_readable_size n =
     Some (fmt_2f (Qdiv (Qdiv (Qdiv (inject_Z n) (1024#1)) (1024#1)) (1024#1)) ++ " GB")).
Proof.
  intros Hn; unfold human_readable_size; rewrite (double_of_int_exact n Hn).
  rewrite hr_loop_ranges.
  repeat split; intros;
    (replace (n =? 0)%Z with false by (symmetry; apply Z.eqb_neq; lia));
    repeat match goal with
           | |- context [Z.ltb ?a ?b] => destruct (Z.ltb_spec a b); try lia
           end; reflexivity.
Qed.

(** Below 1024^4 bytes, the printed number of every non-zero size lies
    between 1.00 and 1024.00 and is followed by one of the four units (the
    upper end is reached by rounding, as in "1024.00 KB" for 1048575
    bytes). *)
Theorem human_readable_size_value_bounds (n : Z) :
  (1 <= n < 1024 * 1024 * 1024 * 1024)%Z ->
  exists r i,
    human_readable_size n = Some (fmt_hundredths r ++ " " ++ nth i size_names "") /\
    (i < length size_names)%nat /\ (100 <= r <= 102400)%Z.
Proof.
  intros Hn; unfold human_readable_size.
  replace (n =? 0)%Z with false by (symmetry; apply Z.eqb_neq; lia).
  rewrite double_of_int_exact
    by (change (2 ^ 53)%Z with 9007199254740992%Z; lia).
  rewrite hr_loop_ranges.
  repeat match goal with
         | |- context [Z.ltb ?a ?b] => destruct (Z.ltb_spec a b)
         end;
  (match goal with
   | |- exists r i, Some (fmt_2f ?v ++ _) = _ /\ _ =>
       unfold fmt_2f;
       replace (Qle_bool 0 v) with true
         by (symmetry; apply Qle_bool_iff; unfold Qle; simpl; lia);
       exists (round_half_even (Qmult v (100#1))); eexists; split; [reflexivity|];
       split; [simpl; lia|];
       apply round_half_even_between; unfold Qle; simpl; lia
   end).
Qed.

Lemma choose_connections_gt1 (mbps : Q) :
  (1 < choose_connections mbps)%Z <-> (10#1) <= mbps.
Proof.
  destruct mbps as [a b]; unfold choose_connections, CONNECTION_THRESHOLDS; simpl.
  repeat match goal with
         | |- context [Qle_bool ?x ?y] =>
             let E := fresh "E" in
             destruct (Qle_bool x y) eqn:E;
             [apply Qle_bool_iff in E | apply not_true_iff_false in E;
                                        rewrite Qle_bool_iff in E];
             unfold Qle in E; simpl in E
         end;
  unfold Qle; simpl; split; intros; lia.
Qed.

(** The extraction is delegated to aria2c exactly when aria2c is
    installed and the measured speed is at least 10 Mbps (more than one
    connection); it is then asked for the chosen number of connections and
    splits of 1M, and otherwise gets no arguments.  When the speed test
    fails, the fallback of 10 Mbps gives 4 connections. *)
Theorem build_opts_aria2 (which : string -> bool) (speedtest : speedtest_run)
    (output_dir : string) (progress_hook : bool) :
  let o := build_opts which speedtest output_dir progress_hook in
  let c := str_of_Z (choose_connections (measure_download_speed speedtest)) in
  (which "aria2c" = true -> (10#1) <= measure_download_speed speedtest ->
     o_external_downloader o = Some "aria2c" /\
     o_external_downloader_args o = ["-x"; c; "-s"; c; "-k"; "1M"]) /\
  (which "aria2c" = false \/ measure_download_speed speedtest < (10#1) ->
     o_external_downloader o = None /\ o_external_downloader_args o = []) /\
  (speedtest = SpeedRaised -> which "aria2c" = true ->
     o_external_downloader_args o = ["-x"; "4"; "-s"; "4"; "-k"; "1M"]).
Proof.
  cbv zeta; unfold build_opts, check_tool_exists; cbn [o_external_downloader
    o_external_downloader_args].
  split; [|split].
  - intros Hw Hs; rewrite Hw.
    apply choose_connections_gt1, Z.ltb_lt in Hs; rewrite Hs; split; reflexivity.
  - intros [Hw|Hs]; [rewrite Hw; split; reflexivity|].
    replace (1 <? choose_connections (measure_download_speed speedtest))%Z with false.
    + rewrite andb_false_r; split; reflexivity.
    + symmetry; apply Z.ltb_ge.
      destruct (Z.le_gt_cases (choose_connections (measure_download_speed speedtest)) 1)
        as [H|H]; [exact H|].
      apply choose_connections_gt1 in H; exfalso; apply (Qlt_not_le _ _ Hs H).
  - intros -> Hw; rewrite Hw; reflexivity.
Qed.

(** When the first call of [extract_info] succeeds there is no retry:
    up to the file detection, the only effect is that one call, made with
    [quiet] on. *)
Theorem first_attempt_no_retry (which : string -> bool) (speedtest : speedtest_run)
    (extract_info : ydl_opts -> string -> fs -> fs * ydl_result)
    (url output_dir : string) (progress_hook : bool) (f0 f1 : fs) (i : info) :
  let o := build_opts which speedtest output_dir progress_hook in
  extract_info o url f0 = (f1, Returned (Some i)) ->
  st_log (state_of (fetch_and_locate which speedtest extract_info url output_dir
                      progress_hook (mk_state f0 []))) = [EvExtract o] /\
  o_quiet o = true.
Proof.
  cbv zeta; intros H; split; [|reflexivity].
  unfold fetch_and_locate, extract_with_retry, locate_stage, call_extract, bind, get_fs,
    ret, raise; cbn [st_fs st_log]; rewrite H; cbn [st_fs st_log].
  destruct (locate_file output_dir i f1); reflexivity.
Qed.

Lemma remove_stale_fs (mp3 : path) (s s2 : state) (u : unit) :
  (if fs_exists mp3 (st_fs s) then unlink mp3 else ret tt) s = Ok u s2 ->
  forall q, path_eqb mp3 q = false -> fs_lookup q (st_fs s2) = fs_lookup q (st_fs s).
Proof.
  destruct (fs_exists mp3 (st_fs s)).
  - unfold unlink; destruct (fs_lookup mp3 (st_fs s)) as [m|]; [|discriminate].
    destruct (m_is_dir m); [discriminate|]; intros H; inversion H; subst; simpl.
    intros q Hq; now apply fs_lookup_remove_other.
  - unfold ret; intros H; inversion H; subst; reflexivity.
Qed.

Lemma remove_stale_raise (mp3 : path) (s s2 : state) (e : exn) :
  (if fs_exists mp3 (st_fs s) then unlink mp3 else ret tt) s = Raise e s2 ->
  s2 = s /\ exists msg, e = OSError msg.
Proof.
  destruct (fs_exists mp3 (st_fs s)); [|discriminate].
  unfold unlink; destruct (fs_lookup mp3 (st_fs s)) as [m|];
    [destruct (m_is_dir m)|]; intros H; inversion H; subst; eauto.
Qed.

Lemma run_encoder_ok_fs (ffmpeg : fs -> list string -> encoder_exit) (inp out : path)
    (s s' : state) (u : unit) :
  run_encoder ffmpeg inp out s = Ok u s' ->
  exists m size mtime, fs_lookup inp (st_fs s) = Some m /\ m_is_dir m = false /\
    st_fs s' = fs_write out size mtime (st_fs s).
Proof.
  unfold run_encoder.
  destruct (fs_lookup inp (st_fs s)) as [m|]; [|discriminate].
  destruct (m_is_dir m) eqn:D; [discriminate|].
  destruct (ffmpeg (st_fs s) (ffmpeg_cmd inp out)) as [sz mt|]; [|discriminate].
  intros H; inversion H; subst; simpl; eauto 6.
Qed.

Lemma run_encoder_raise (ffmpeg : fs -> list string -> encoder_exit) (inp out : path)
    (s s' : state) (e : exn) :
  run_encoder ffmpeg inp out s = Raise e s' ->
  st_fs s' = st_fs s /\ exists stderr, e = RuntimeError ("MP3 conversion failed: " ++ stderr).
Proof.
  unfold run_encoder.
  destruct (fs_lookup inp (st_fs s)) as [m|];
    [destruct (m_is_dir m); [|destruct (ffmpeg (st_fs s) (ffmpeg_cmd inp out))]|];
    intros H; inversion H; subst; simpl; eauto.
Qed.

(** What a successful conversion stage leaves on disk. *)
Lemma convert_stage_success (which : string -> bool)
    (ffmpeg : fs -> list string -> encoder_exit) (d : string) (df : path)
    (keep_original : bool) (files files' : list file_entry) (s s' : state) :
  convert_stage which ffmpeg d df keep_original files s = Ok files' s' ->
  let mp3 := mk_path d (p_stem df) ".mp3" in
  exists f_pre m size mtime,
    (forall q, path_eqb mp3 q = false -> fs_lookup q f_pre = fs_lookup q (st_fs s)) /\
    fs_lookup df (st_fs s) = Some m /\ m_is_dir m = false /\ path_eqb mp3 df = false /\
    files' = (if keep_original
              then files ++ [mp3_entry mp3 (fs_write mp3 size mtime f_pre)]
              else filter not_original
                     (files ++ [mp3_entry mp3 (fs_write mp3 size mtime f_pre)]))%list /\
    st_fs s' = (if keep_original then fs_write mp3 size mtime f_pre
                else fs_remove df (fs_write mp3 size mtime f_pre)).
Proof.
  intros H; cbv zeta.
  unfold convert_stage, check_tool_exists in H.
  destruct (which "ffmpeg"); simpl in H; [|discriminate].
  set (mp3 := mk_path d (p_stem df) ".mp3") in *.
  unfold bind at 1, get_fs in H; unfold bind at 1 in H.
  destruct ((if fs_exists mp3 (st_fs s) then unlink mp3 else ret tt) s) as [u s2|e s2]
    eqn:E; [|discriminate].
  pose proof (remove_stale_fs _ _ _ _ E) as Hagree.
  assert (Hfree : fs_exists mp3 (st_fs s2) = false)
    by (apply remove_stale_ok in E as [[? _] | [? _]]; assumption).
  clear E; unfold bind at 1 in H; unfold run_encoder in H.
  destruct (fs_lookup df (st_fs s2)) as [m|] eqn:Ld; [|discriminate].
  destruct (m_is_dir m) eqn:Dm; [discriminate|].
  destruct (ffmpeg (st_fs s2) (ffmpeg_cmd df mp3)) as [sz mt|err] eqn:Ff; [|discriminate].
  unfold bind, get_fs in H; cbn [st_fs st_log] in H.
  assert (Hne : path_eqb mp3 df = false).
  { destruct (path_eqb mp3 df) eqn:Q; [|reflexivity].
    apply path_eqb_eq in Q; rewrite Q in Hfree; unfold fs_exists in Hfree;
      rewrite Ld in Hfree; discriminate. }
  assert (Hmp3 : fs_exists mp3 (fs_write mp3 sz mt (st_fs s2)) = true)
    by (unfold fs_exists; now rewrite fs_lookup_write_same).
  assert (Ldf : fs_lookup df (fs_write mp3 sz mt (st_fs s2)) = Some m)
    by (rewrite fs_lookup_write_other by exact Hne; exact Ld).
  rewrite Hmp3 in H.
  exists (st_fs s2), m, sz, mt.
  split; [exact Hagree|]; split; [rewrite <- (Hagree df Hne); exact Ld|].
  split; [exact Dm|]; split; [exact Hne|].
  destruct keep_original; simpl in H.
  - unfold ret in H; inversion H; subst; split; reflexivity.
  - unfold fs_exists at 1 in H; rewrite Ldf in H.
    unfold unlink in H; cbn [st_fs st_log] in H; rewrite Ldf, Dm in H.
    unfold ret in H; inversion H; subst; split; reflexivity.
Qed.

(** Lines 195-223: when the conversion stage fails, and the encoder's
    output path is not the downloaded file itself, the downloaded file is
    left as it was; the error is the missing-encoder error, the encoder's
    failure message, or an [OSError] from a removal. *)
Theorem conversion_failure_keeps_download (which : string -> bool)
    (ffmpeg : fs -> list string -> encoder_exit) (d : string) (df : path)
    (keep_original : bool) (files : list file_entry) (s s' : state) (e : exn) :
  path_eqb (mk_path d (p_stem df) ".mp3") df = false ->
  convert_stage which ffmpeg d df keep_original files s = Raise e s' ->
  fs_lookup df (st_fs s') = fs_lookup df (st_fs s) /\
  (e = RuntimeError ffmpeg_missing_msg \/
   (exists stderr, e = RuntimeError ("MP3 conversion failed: " ++ stderr)) \/
   (exists msg, e = OSError msg)).
Proof.
  intros Hne H.
  unfold convert_stage, check_tool_exists in H.
  destruct (which "ffmpeg"); simpl in H.
  2: { unfold raise in H; inversion H; subst; split; auto. }
  set (mp3 := mk_path d (p_stem df) ".mp3") in *.
  unfold bind at 1, get_fs in H; unfold bind at 1 in H.
  destruct ((if fs_exists mp3 (st_fs s) then unlink mp3 else ret tt) s) as [u s2|e2 s2]
    eqn:E; cbv beta iota in H.
  2: { apply remove_stale_raise in E as [-> [msg ->]]; inversion H; subst.
       split; [reflexivity | eauto]. }
  pose proof (remove_stale_fs _ _ _ _ E) as Hagree.
  unfold bind at 1 in H.
  destruct (run_encoder ffmpeg df mp3 s2) as [u' s3|e3 s3] eqn:R; cbv beta iota in H.
  2: { inversion H; subst; apply run_encoder_raise in R as [F [err ->]].
       split; [rewrite F; apply Hagree; exact Hne | eauto]. }
  apply run_encoder_ok_fs in R as (m & sz & mt & _ & _ & F3).
  assert (Ldf : fs_lookup df (st_fs s3) = fs_lookup df (st_fs s))
    by (rewrite F3, fs_lookup_write_other by exact Hne; apply Hagree; exact Hne).
  unfold bind, get_fs, ret in H.
  destruct (negb keep_original && _); [|discriminate].
  unfold unlink in H.
  remember (fs_lookup df (st_fs s3)) as o eqn:Eo.
  destruct o as [m0|]; [destruct (m_is_dir m0)|];
    inversion H; subst; (split; [congruence | eauto]).
Qed.

(** Lines 199-204: with the encoder installed and a directory at the mp3
    output path, the stale-file removal raises [IsADirectoryError]; the
    encoder is not started and nothing changes. *)
Theorem convert_mp3_target_is_directory (which : string -> bool)
    (ffmpeg : fs -> list string -> encoder_exit) (d : string) (df : path)
    (keep_original : bool) (files : list file_entry) (s : state) (m : meta) :
  which "ffmpeg" = true ->
  fs_lookup (mk_path d (p_stem df) ".mp3") (st_fs s) = Some m ->
  m_is_dir m = true ->
  convert_stage which ffmpeg d df keep_original files s =
  Raise (OSError ("Is a directory: " ++ path_str (mk_path d (p_stem df) ".mp3"))) s.
Proof.
  intros Hw Hl Hd.
  unfold convert_stage, check_tool_exists; rewrite Hw; cbn [negb]; cbv zeta.
  unfold bind at 1, get_fs; unfold bind at 1.
  unfold fs_exists; rewrite Hl; unfold unlink; rewrite Hl, Hd; reflexivity.
Qed.

(** Lines 199-223: when the located download is itself [<stem>.mp3] in the
    output directory, the stale-file removal deletes it, and the encoder,
    reading a file that no longer exists, fails; the download is lost. *)
Theorem convert_download_is_target (which : string -> bool)
    (ffmpeg : fs -> list string -> encoder_exit) (d : string) (df : path)
    (keep_original : bool) (files : list file_entry) (s : state) (m : meta) :
  which "ffmpeg" = true ->
  p_dir df = d -> p_suffix df = ".mp3" ->
  fs_lookup df (st_fs s) = Some m -> m_is_dir m = false ->
  exists stderr s',
    convert_stage which ffmpeg d df keep_original files s =
    Raise (RuntimeError ("MP3 conversion failed: " ++ stderr)) s' /\
    st_fs s' = fs_remove df (st_fs s).
Proof.
  intros Hw Hdir Hsuf Hl Hd.
  assert (Hmp : mk_path d (p_stem df) ".mp3" = df)
    by (destruct df; simpl in *; subst; reflexivity).
  unfold convert_stage, check_tool_exists; rewrite Hw; cbn [negb]; cbv zeta.
  rewrite Hmp.
  unfold bind at 1, get_fs; unfold bind at 1.
  unfold fs_exists at 1; rewrite Hl; unfold unlink; rewrite Hl, Hd.
  unfold bind at 1, run_encoder; cbn [st_fs st_log].
  rewrite fs_lookup_remove_same.
  do 2 eexists; split; reflexivity.
Qed.

(** Lines 178-240: every entry of [results["files"]] of a successful call
    names a file that exists when the call returns, and the size it
    reports (the byte count passed to [human_readable_size]) is that
    file's size at return. *)
Theorem reported_files_on_disk (which : string -> bool) (speedtest : speedtest_run)
    (extract_info : ydl_opts -> string -> fs -> fs * ydl_result)
    (ffmpeg : fs -> list string -> encoder_exit) (url : string)
    (output_dir : option string) (convert_to_mp3 keep_original progress_hook : bool)
    (f0 : fs) (r : result) (s' : state) :
  run which speedtest extract_info ffmpeg url output_dir convert_to_mp3 keep_original
    progress_hook f0 = Ok r s' ->
  Forall (fun e => exists p m,
            p_name p = f_name e /\ fs_lookup p (st_fs s') = Some m /\ m_size m = f_size e)
         (r_files r).
Proof.
  intros H.
  destruct (run_ok _ _ _ _ _ _ _ _ _ _ _ _ H) as (i & df & s1 & F & Hno & Hyes).
  pose proof (fetch_ok_exists _ _ _ _ _ _ _ _ _ _ F) as Hex.
  unfold fs_exists in Hex.
  destruct (fs_lookup df (st_fs s1)) as [m0|] eqn:L0; [|discriminate].
  destruct convert_to_mp3.
  - specialize (Hyes eq_refl).
    destruct (convert_stage_success _ _ _ _ _ _ _ _ _ Hyes)
      as (f_pre & m & sz & mt & Hagree & Ld & Dm & Hne & Hfiles & Hfs).
    set (mp3 := mk_path (out_dir output_dir) (p_stem df) ".mp3") in *.
    assert (Lpre : fs_lookup df f_pre = Some m0) by (rewrite Hagree; assumption).
    rewrite Hfiles; destruct keep_original; rewrite Hfs; simpl.
    + repeat constructor.
      * exists df, m0; unfold original_entry, fs_size; simpl.
        rewrite fs_lookup_write_other, Lpre by exact Hne; rewrite L0; auto.
      * exists mp3, (mk_meta mt sz false); unfold mp3_entry, fs_size; simpl.
        rewrite fs_lookup_write_same; auto.
    + repeat constructor.
      exists mp3, (mk_meta mt sz false); unfold mp3_entry, fs_size; simpl.
      rewrite fs_lookup_remove_other by (rewrite path_eqb_sym; exact Hne).
      rewrite fs_lookup_write_same; auto.
  - destruct (Hno eq_refl) as [-> ->].
    repeat constructor; exists df, m0; unfold original_entry, fs_size; simpl.
    rewrite L0; auto.
Qed.

(** Lines 178-240: with [convert_to_mp3 = true] and [keep_original = true],
    a successful call reports the original file first and the mp3 second,
    and both exist when the call returns. *)
Theorem keep_original_reports_both (which : string -> bool) (speedtest : speedtest_run)
    (extract_info : ydl_opts -> string -> fs -> fs * ydl_result)
    (ffmpeg : fs -> list string -> encoder_exit) (url : string)
    (output_dir : option string) (progress_hook : bool) (f0 : fs) (r : result)
    (s' : state) :
  run which speedtest extract_info ffmpeg url output_dir true true progress_hook f0 =
    Ok r s' ->
  map f_type (r_files r) = ["original"; "mp3"] /\
  exists df, p_name df = f_name (hd (mk_entry "" "" 0 "") (r_files r)) /\
    fs_exists df (st_fs s') = true /\
    fs_exists (mk_path (out_dir output_dir) (p_stem df) ".mp3") (st_fs s') = true.
Proof.
  intros H.
  destruct (run_ok _ _ _ _ _ _ _ _ _ _ _ _ H) as (i & df & s1 & F & _ & Hyes).
  specialize (Hyes eq_refl).
  destruct (convert_stage_success _ _ _ _ _ _ _ _ _ Hyes)
    as (f_pre & m & sz & mt & Hagree & Ld & Dm & Hne & Hfiles & Hfs).
  cbn zeta in *; rewrite Hfiles; split; [reflexivity|].
  exists df; split; [reflexivity|]; rewrite Hfs; unfold fs_exists.
  rewrite fs_lookup_write_other, Hagree, Ld by exact Hne.
  rewrite fs_lookup_write_same; auto.
Qed.

(** [human_readable_size 5] at a concrete input. *)
Lemma human_readable_size_small_witness :
  (0 < 5 < 1024)%Z /\ human_readable_size 5 = Some "5.00 B".
Proof.
  split; [lia|].
  exact (human_readable_size_small 5 ltac:(lia)).
Defined.

(** The example of the specification: 1536 bytes print as ["1.50 KB"]. *)
Lemma human_readable_size_unit_witness :
  (Z.abs 1536 < 2 ^ 53)%Z /\ human_readable_size 1536 = Some "1.50 KB" /\
  human_readable_size 1536 = Some (fmt_2f (Qdiv (inject_Z 1536) (1024#1)) ++ " KB").
Proof.
  split; [vm_compute; reflexivity|]; split; [vm_compute; reflexivity|].
  exact (proj1 (proj2 (human_readable_size_unit 1536 ltac:(vm_compute; reflexivity)))
           ltac:(lia)).
Defined.

(** One byte short of a mebibyte stays in kilobytes and prints as
    ["1024.00 KB"], the upper end of the bound. *)
Lemma human_readable_size_value_bounds_witness :
  (1 <= 1048575 < 1024 * 1024 * 1024 * 1024)%Z /\
  human_readable_size 1048575 = Some "1024.00 KB" /\
  exists r i,
    human_readable_size 1048575 = Some (fmt_hundredths r ++ " " ++ nth i size_names "") /\
    (i < length size_names)%nat /\ (100 <= r <= 102400)%Z.
Proof.
  split; [lia|]; split; [vm_compute; reflexivity|].
  exact (human_readable_size_value_bounds 1048575 ltac:(lia)).
Defined.

(** A first attempt that succeeds is the only call to the extractor. *)
Lemma first_attempt_no_retry_witness :
  let o := build_opts which_all SpeedRaised "downloads" false in
  extract_song o "u" [] =
    (fs_write webm 4000000 10 [],
     Returned (Some (mk_info (Some [Some webm]) None (Some "Song")))) /\
  st_log (state_of (fetch_and_locate which_all SpeedRaised extract_song "u" "downloads"
                      false (mk_state [] []))) = [EvExtract o] /\
  o_quiet o = true.
Proof.
  cbv zeta; split; [reflexivity|].
  exact (first_attempt_no_retry which_all SpeedRaised extract_song "u" "downloads" false
           [] (fs_write webm 4000000 10 []) (mk_info (Some [Some webm]) None (Some "Song"))
           eq_refl).
Defined.

(** An encoder that fails leaves the downloaded [Song.webm] in place. *)
Lemma conversion_failure_keeps_download_witness :
  match convert_stage which_all (fun _ _ => EncFail "Invalid data") "downloads" webm false
          [] (mk_state [(webm, mk_meta 10 4000000 false)] []) with
  | Raise e s' => fs_lookup webm (st_fs s') = Some (mk_meta 10 4000000 false)
  | Ok _ _ => False
  end.
Proof.
  destruct (convert_stage which_all (fun _ _ => EncFail "Invalid data") "downloads" webm
              false [] (mk_state [(webm, mk_meta 10 4000000 false)] [])) as [v s'|e s'] eqn:E.
  - vm_compute in E; discriminate.
  - exact (proj1 (conversion_failure_keeps_download which_all
                    (fun _ _ => EncFail "Invalid data") "downloads" webm false []
                    (mk_state [(webm, mk_meta 10 4000000 false)] []) s' e eq_refl E)).
Defined.

(** A directory named [Song.mp3] in the output directory stops the
    conversion of [Song.webm]. *)
Lemma convert_mp3_target_is_directory_witness :
  convert_stage which_all ffmpeg_ok "downloads" webm false []
    (mk_state [(webm, mk_meta 10 4000000 false); (stale_mp3, mk_meta 5 4096 true)] []) =
  Raise (OSError ("Is a directory: " ++ path_str stale_mp3))
    (mk_state [(webm, mk_meta 10 4000000 false); (stale_mp3, mk_meta 5 4096 true)] []).
Proof.
  exact (convert_mp3_target_is_directory which_all ffmpeg_ok "downloads" webm false []
           (mk_state [(webm, mk_meta 10 4000000 false); (stale_mp3, mk_meta 5 4096 true)] [])
           (mk_meta 5 4096 true) eq_refl eq_refl eq_refl).
Defined.

(** A download that is already [Song.mp3] is deleted before the encoder
    runs. *)
Lemma convert_download_is_target_witness :
  exists stderr s',
    convert_stage which_all ffmpeg_ok "downloads" stale_mp3 true []
      (mk_state dir_with_stale_mp3 []) =
    Raise (RuntimeError ("MP3 conversion failed: " ++ stderr)) s' /\
    st_fs s' = fs_remove stale_mp3 dir_with_stale_mp3.
Proof.
  exact (convert_download_is_target which_all ffmpeg_ok "downloads" stale_mp3 true []
           (mk_state dir_with_stale_mp3 []) (mk_meta 1 123 false)
           eq_refl eq_refl eq_refl eq_refl eq_refl).
Defined.

(** The files reported by a converting call that keeps the original. *)
Lemma reported_files_on_disk_witness :
  match run which_all SpeedRaised extract_song ffmpeg_ok "u" None true true false [] with
  | Ok r s' => Forall (fun e => exists p m, p_name p = f_name e /\
                         fs_lookup p (st_fs s') = Some m /\ m_size m = f_size e) (r_files r)
  | Raise _ _ => False
  end.
Proof.
  destruct (run which_all SpeedRaised extract_song ffmpeg_ok "u" None true true false [])
    as [r s'|e s'] eqn:E.
  - exact (reported_files_on_disk which_all SpeedRaised extract_song ffmpeg_ok "u" None
             true true false [] r s' E).
  - vm_compute in E; discriminate.
Defined.

(** [keep_original = true] at a concrete input. *)
Lemma keep_original_reports_both_witness :
  match run which_all SpeedRaised extract_song ffmpeg_ok "u" None true true false [] with
  | Ok r _ => map f_type (r_files r) = ["original"; "mp3"]
  | Raise _ _ => False
  end.
Proof.
  destruct (run which_all SpeedRaised extract_song ffmpeg_ok "u" None true true false [])
    as [r s'|e s'] eqn:E.
  - exact (proj1 (keep_original_reports_both which_all SpeedRaised extract_song ffmpeg_ok
                    "u" None false [] r s' E)).
  - vm_compute in E; discriminate.
Defined.
